(** * Coffee-Shop-Profit-Predictor: ingestion, training and scoring

    A shallow embedding of [src/create_db.py], [src/train_regression.py],
    [src/score_new_sites.py] and the helpers of [src/utils.py] they call.

    The three scripts are straight-line programs over a file system, a
    SQLite database and a handful of pandas / scikit-learn / joblib calls.
    The embedding keeps that shape:

    - a [World] holds the files, the directories, the databases and the
      state of numpy's global random generator;
    - every script is a computation in a state-and-exception monad [M]; a
      Python exception is an [Err] result and, as in Python, whatever was
      written before the exception stays written;
    - a data frame is a list of column names and a list of rows of cells;
      numbers are binary64 floats;
    - the library routines whose results depend on the numerical kernels
      behind them (the SQL script of [queries.sql], the permutation drawn by
      the random generator, the fit of the scaler and of the elastic net, the
      default argsort) are fields of a record [Lib]; everything that decides
      which data goes where is written out. *)

From Stdlib Require Import PrimFloat.
From stdpp Require Import gmap strings list sorting.

#[local] Set Warnings "-inexact-float".

Open Scope string_scope.
Open Scope list_scope.

(** ** Exceptions *)

(** The reasons for which the library calls used here raise [ValueError]. *)
Inductive value_error :=
  | MissingColumns (table : string) (missing : list string)
      (* create_db._validate_columns *)
  | EmptyTrainSet (n_samples : nat)
      (* sklearn train_test_split: the resulting train set will be empty *)
  | ColumnsAreMissing (missing : list string)
      (* sklearn ColumnTransformer.transform *)
  | TooFewSamples
      (* sklearn check_array: 0 sample(s) while a minimum of 1 is required *)
  | NotFinite
      (* sklearn check_array: input contains NaN or infinity *)
  | NotNumeric
      (* sklearn check_array: could not convert string to float *)
  | LengthMismatch.
      (* pandas: length of values does not match length of index *)

Inductive exn :=
  | FileNotFoundError (path : list string)
  | KeyError (missing : list string)
  | ValueError (why : value_error)
  | DatabaseError (relation : string)
  | ParserError (path : list string)
  | UnicodeDecodeError (path : list string)
  | UnpicklingError (path : list string).

Inductive result (A : Type) :=
  | Ok (a : A)
  | Err (e : exn).
Arguments Ok {A} a.
Arguments Err {A} e.

#[export] Instance result_ret : MRet result := @Ok.
#[export] Instance result_bind : MBind result := λ A B f r,
  match r with Ok a => f a | Err e => Err e end.

(** ** Data frames *)

Inductive cell :=
  | Num (x : float)
  | Str (s : string).

Record DataFrame := mkDataFrame {
  columns : list string;
  rows : list (list cell)
}.

(** A missing value reads as NaN, as in pandas. *)
Definition NA : cell := Num nan.

Fixpoint index_of (c : string) (cols : list string) : option nat :=
  match cols with
  | [] => None
  | c' :: cols' => if decide (c = c') then Some 0 else S <$> index_of c cols'
  end.

(** The cell of row [r] under the column named [c]. *)
Definition row_get (cols : list string) (r : list cell) (c : string) : cell :=
  match index_of c cols with
  | Some i => nth i r NA
  | None => NA
  end.

(** [df[cols]]: the listed columns, in the listed order; a [KeyError] that
    names the absent ones otherwise. (Column labels are taken to be
    distinct, as the labels of a SQLite result set or view are.) *)
Definition getitem_list (df : DataFrame) (cols : list string) : result DataFrame :=
  match filter (λ c, c ∉ columns df) cols with
  | [] => Ok (mkDataFrame cols (map (λ r, map (row_get (columns df) r) cols) (rows df)))
  | missing => Err (KeyError missing)
  end.

(** [df[c]]: one column, as a series. *)
Definition getitem (df : DataFrame) (c : string) : result (list cell) :=
  if decide (c ∈ columns df)
  then Ok (map (λ r, row_get (columns df) r c) (rows df))
  else Err (KeyError [c]).

(** [df[c] = values] for a column [c] that [df] does not have yet: the new
    column is appended on the right, row by row. *)
Definition setitem (df : DataFrame) (c : string) (values : list cell) : result DataFrame :=
  if decide (length values = length (rows df))
  then Ok (mkDataFrame (columns df ++ [c])
             (zip_with (λ r v, r ++ [v]) (rows df) values))
  else Err (ValueError LengthMismatch).

(** [pd.DataFrame({c1: v1, c2: v2})]. *)
Definition DataFrame_of_dict (c1 : string) (v1 : list cell) (c2 : string) (v2 : list cell)
  : result DataFrame :=
  if decide (length v1 = length v2)
  then Ok (mkDataFrame [c1; c2] (zip_with (λ a b, [a; b]) v1 v2))
  else Err (ValueError LengthMismatch).

(** ** The fitted pipeline *)

Record StandardScaler := mkScaler {
  mean_ : list float;
  scale_ : list float
}.

Record ElasticNet := mkElasticNet {
  coef_ : list float;
  intercept_ : float
}.

(** [Pipeline([("pre", ColumnTransformer([("num", StandardScaler(), cols)],
    remainder="drop")), ("model", ElasticNet(...))])], once fitted. *)
Record Pipeline := mkPipeline {
  pre_columns : list string;
  pre_scaler : StandardScaler;
  model : ElasticNet
}.

(** ** The world *)

Definition Path := list string.

(** [p / name] of pathlib. *)
Definition path_join (p : Path) (name : string) : Path := p ++ [name].
Declare Scope path_scope.
Delimit Scope path_scope with path.
Infix "/" := path_join : path_scope.
Bind Scope path_scope with Path.

Definition parent (p : Path) : Path := removelast p.

(** [p] with its parents, from the root down. *)
Definition path_and_parents (p : Path) : list Path :=
  map (λ n, take n p) (seq 0 (S (length p))).

Inductive Figure :=
  | Scatter (y_true y_pred : list float) (title : string)
  | Hist (series : list float) (title : string)
  | Bar (names : list cell) (values : list cell) (title : string).

Inductive File :=
  | TextFile (text : string)
  | CsvFile (df : DataFrame)
  | JsonFile (obj : list (string * float))
  | PngFile (fig : Figure)
  | JoblibFile (pipe : Pipeline).

(** A SQLite database: its tables and views, by name. *)
Abbreviation DB := (gmap string DataFrame).

Record World := mkWorld {
  files : gmap Path File;
  dirs : gset Path;
  dbs : gmap Path DB;
  np_random : Z
}.

(** ** The monad of the scripts *)

Definition M (A : Type) : Type := World → result A * World.

#[export] Instance M_ret : MRet M := λ A a w, (Ok a, w).
#[export] Instance M_bind : MBind M := λ A B f m w,
  match m w with
  | (Ok a, w') => f a w'
  | (Err e, w') => (Err e, w')
  end.

Definition raise {A} (e : exn) : M A := λ w, (Err e, w).

Definition lift {A} (r : result A) : M A := λ w, (r, w).

Definition with_file (w : World) (p : Path) (f : File) : World :=
  mkWorld (<[p := f]> (files w)) (dirs w) (dbs w) (np_random w).

(** The directory [p] made, with the parents it lacks. *)
Definition with_dir (w : World) (p : Path) : World :=
  mkWorld (files w) (list_to_set (path_and_parents p) ∪ dirs w) (dbs w) (np_random w).

Definition with_db (w : World) (db_path : Path) (d : DB) : World :=
  mkWorld (files w) (dirs w) (<[db_path := d]> (dbs w)) (np_random w).

Definition write_file (p : Path) (f : File) : M () := λ w, (Ok (), with_file w p f).

(** [p.mkdir(parents=True, exist_ok=True)], where it goes through: the
    directory and its missing parents are there afterwards. (The call
    raises when a regular file is at [p] or at a parent of it, see
    [may_be_directory].) *)
Definition mkdir (p : Path) : M () := λ w, (Ok (), with_dir w p).

(** [sqlite3.connect(db_path)]: a database that does not exist yet is
    created empty. *)
Definition connect (db_path : Path) (w : World) : DB :=
  default ∅ (dbs w !! db_path).

Definition set_db (db_path : Path) (d : DB) : M () := λ w, (Ok (), with_db w db_path d).

(** ** utils.py *)

(** The plots are kept as what they draw. *)
Definition ensure_outdir (path : Path) : M Path :=
  mkdir path;; mret path.

Definition save_csv (df : DataFrame) (path : Path) : M Path :=
  mkdir (parent path);;
  write_file path (CsvFile df);;
  mret path.

Definition save_json (obj : list (string * float)) (path : Path) : M Path :=
  mkdir (parent path);;
  write_file path (JsonFile obj);;
  mret path.

Definition plot_scatter_actual_vs_pred (y_true y_pred : list float) (out_path : Path)
    (title : string) : M Path :=
  write_file out_path (PngFile (Scatter y_true y_pred title));;
  mret out_path.

Definition plot_hist (series : list float) (out_path : Path) (title : string) : M Path :=
  write_file out_path (PngFile (Hist series title));;
  mret out_path.

Definition plot_bar (names values : list cell) (out_path : Path) (title : string) : M Path :=
  write_file out_path (PngFile (Bar names values title));;
  mret out_path.

(** [open(path, "r", encoding="utf-8").read()]. *)
Definition read_text (path : Path) : M string := λ w,
  match files w !! path with
  | Some (TextFile text) => (Ok text, w)
  | Some _ => (Err (UnicodeDecodeError path), w)
  | None => (Err (FileNotFoundError path), w)
  end.

(** ** The library routines left abstract *)

Record Lib := mkLib {
  (** [con.executescript(sql_text)]: the script of [queries.sql], which is
      not part of the sources at hand, run against a database. The script
      is taken to act on the database it is run against and on no other. *)
  executescript : string → DB → result DB;
  (** [RandomState.permutation(n)] from a generator state: the permutation
      and the state after the draw. *)
  permutation : Z → nat → list nat * Z;
  (** [StandardScaler().fit(X)]: the per-column statistics. *)
  scaler_fit : list (list float) → StandardScaler;
  (** [ElasticNet(alpha, l1_ratio, random_state).fit(X, y)]. *)
  enet_fit : float → float → Z → list (list float) → list float → ElasticNet;
  (** [ndarray.argsort(kind="quicksort")], ascending. *)
  argsort : list float → list nat
}.

(** ** pandas and sqlite3 *)

(** [con.executescript(sql_text)] on the database at [db_path]. *)
Definition con_executescript (lib : Lib) (db_path : Path) (sql_text : string) : M () := λ w,
  match executescript lib sql_text (connect db_path w) with
  | Ok d => set_db db_path d w
  | Err e => (Err e, w)
  end.

(** [pd.read_sql_query("SELECT * FROM <relation>;", con)]. *)
Definition read_sql_query (relation : string) (db_path : Path) : M DataFrame := λ w,
  match connect db_path w !! relation with
  | Some df => (Ok df, w)
  | None => (Err (DatabaseError relation), w)
  end.

(** The row labelled [i] under the default index; [reindex] fills a label
    that is absent with missing values. *)
Definition row_at (df : DataFrame) (i : nat) : list cell :=
  nth i (rows df) (map (λ _, NA) (columns df)).

(** [df.reindex(labels).reset_index(drop=True)]. *)
Definition reindex (df : DataFrame) (labels : list nat) : DataFrame :=
  mkDataFrame (columns df) (map (row_at df) labels).

(** [pandas.core.sorting.nargsort(items, kind="quicksort", ascending=False,
    na_position="last")], the indexer behind
    [Series.sort_values(ascending=False)]: the items that are not NaN are
    reversed, argsorted in ascending order and reversed again; the NaN come
    last. *)
Definition nargsort_descending (lib : Lib) (items : list float) : list nat :=
  let idx := seq 0 (length items) in
  let is_na i := is_nan (nth i items nan) in
  let non_nan_idx := filter (λ i, is_na i = false) idx in
  let nan_idx := filter (λ i, is_na i = true) idx in
  let non_nans := map (λ i, nth i items nan) non_nan_idx in
  let non_nans := rev non_nans in
  let non_nan_idx := rev non_nan_idx in
  let indexer := map (λ k, nth k non_nan_idx 0) (argsort lib non_nans) in
  let indexer := rev indexer in
  indexer ++ nan_idx.

(** ** scikit-learn *)

Definition is_finite (x : float) : bool :=
  negb (is_nan x) && negb (is_infinity x).

Definition as_float (c : cell) : result float :=
  match c with
  | Num x => Ok x
  | Str _ => Err (ValueError NotNumeric)
  end.

Definition acceptable (allow_nan : bool) (x : float) : bool :=
  is_finite x || (allow_nan && is_nan x).

(** [check_array(X, force_all_finite=...)] on a matrix: the conversion to
    floats, the finiteness test and the minimum of one sample. *)
Definition check_finite (allow_nan : bool) (X : list (list float))
  : result (list (list float)) :=
  if forallb (forallb (acceptable allow_nan)) X
  then (if X is [] then Err (ValueError TooFewSamples) else Ok X)
  else Err (ValueError NotFinite).

Definition check_array (allow_nan : bool) (X : list (list cell))
  : result (list (list float)) :=
  Xf ← mapM (mapM as_float) X;
  check_finite allow_nan Xf.

(** The same for a target vector. *)
Definition check_y (y : list cell) : result (list float) :=
  yf ← mapM as_float y;
  if forallb is_finite yf
  then (if yf is [] then Err (ValueError TooFewSamples) else Ok yf)
  else Err (ValueError NotFinite).

(** [StandardScaler.transform] on one row: [(x - mean_) / scale_]. *)
Definition scale_row (sc : StandardScaler) (r : list float) : list float :=
  zip_with PrimFloat.div (zip_with PrimFloat.sub r (mean_ sc)) (scale_ sc).

(** [ElasticNet.predict] on one row: [x @ coef_ + intercept_]. *)
Definition decision_function (en : ElasticNet) (r : list float) : float :=
  (fold_left (λ acc xw, acc + xw.1 * xw.2) (zip r (coef_ en)) 0 + intercept_ en)%float.

(** [ColumnTransformer.transform(X)] for a transformer given its columns by
    name and fitted on a data frame: every named column has to be there,
    other columns are ignored, and the named ones are taken in the order
    of the transformer. *)
Definition ColumnTransformer_select (cols : list string) (X : DataFrame)
  : result (list (list float)) :=
  match filter (λ c, c ∉ columns X) cols with
  | [] => Xs ← getitem_list X cols; check_array true (rows Xs)
  | missing => Err (ValueError (ColumnsAreMissing missing))
  end.

(** [pipe.predict(X)]. *)
Definition Pipeline_predict (pipe : Pipeline) (X : DataFrame) : result (list float) :=
  Xs ← ColumnTransformer_select (pre_columns pipe) X;
  Xt ← check_finite false (map (scale_row (pre_scaler pipe)) Xs);
  Ok (map (decision_function (model pipe)) Xt).

(** [Pipeline([("pre", ColumnTransformer([("num", StandardScaler(), cols)])),
    ("model", ElasticNet(alpha, l1_ratio, random_state))]).fit(X, y)]. *)
Definition Pipeline_fit (lib : Lib) (cols : list string) (alpha l1_ratio : float)
    (random_state : Z) (X : DataFrame) (y : list cell) : result Pipeline :=
  Xs ← ColumnTransformer_select cols X;
  let sc := scaler_fit lib Xs in
  Xt ← check_finite false (map (scale_row sc) Xs);
  yf ← check_y y;
  Ok (mkPipeline cols sc (enet_fit lib alpha l1_ratio random_state Xt yf)).

(** [check_random_state(random_state)] followed by [permutation(n)]: an
    integer seeds a generator of its own; [None] draws from numpy's global
    generator and advances it. *)
Definition draw_permutation (lib : Lib) (random_state : option Z) (n : nat)
  : M (list nat) := λ w,
  match random_state with
  | Some seed => (Ok (permutation lib seed n).1, w)
  | None =>
      let '(perm, g) := permutation lib (np_random w) n in
      (Ok perm, mkWorld (files w) (dirs w) (dbs w) g)
  end.

(** [_safe_indexing]: the rows at the given positions, in that order. *)
Definition take_rows {A} (d : A) (l : list A) (ind : list nat) : list A :=
  map (λ i, nth i l d) ind.

(** The sizes of the two partitions for a test fraction [num / den]:
    [n_test = ceil(test_size * n_samples)], [n_train = n_samples - n_test]. *)
Definition n_test_of (num den n_samples : nat) : nat :=
  (n_samples * num + den - 1) `div` den.

(** The two index sets of [ShuffleSplit]: the first [n_test] positions of
    the permutation are the test set, the next [n_train] the train set. *)
Definition split_indices (perm : list nat) (n_train n_test : nat) : list nat * list nat :=
  (take n_train (drop n_test perm), take n_test perm).

(** [train_test_split(X, y, test_size=num/den, random_state=random_state)]. *)
Definition train_test_split (lib : Lib) (X : DataFrame) (y : list cell)
    (num den : nat) (random_state : option Z)
  : M (DataFrame * DataFrame * list cell * list cell) :=
  let n_samples := length (rows X) in
  let n_test := n_test_of num den n_samples in
  let n_train := n_samples - n_test in
  if decide (n_train = 0) then raise (ValueError (EmptyTrainSet n_samples))
  else
    perm ← draw_permutation lib random_state n_samples;
    let '(train, test) := split_indices perm n_train n_test in
    mret (mkDataFrame (columns X) (take_rows [] (rows X) train),
          mkDataFrame (columns X) (take_rows [] (rows X) test),
          take_rows NA y train,
          take_rows NA y test).

Fixpoint float_of_nat (n : nat) : float :=
  match n with
  | O => 0%float
  | S k => (float_of_nat k + 1)%float
  end.

Definition fsum (l : list float) : float := fold_left PrimFloat.add l 0%float.

Definition fmean (l : list float) : float := (fsum l / float_of_nat (length l))%float.

Definition sq (x : float) : float := (x * x)%float.

(** [r2_score] and [mean_absolute_error], after their validation of both
    vectors. *)
Definition check_reg_targets (y_true : list cell) (y_pred : list float)
  : result (list float * list float) :=
  yt ← check_y y_true;
  yp ← check_y (map Num y_pred);
  Ok (yt, yp).

Definition r2_score (y_true : list cell) (y_pred : list float) : result float :=
  '(yt, yp) ← check_reg_targets y_true y_pred;
  if decide (length yt < 2) then Ok nan
  else
    let numerator := fsum (zip_with (λ a b, sq (a - b)) yt yp) in
    let denominator := fsum (map (λ a, sq (a - fmean yt)) yt) in
    if negb (denominator =? 0)%float then Ok (1 - numerator / denominator)%float
    else if negb (numerator =? 0)%float then Ok 0%float
    else Ok 1%float.

Definition mean_absolute_error (y_true : list cell) (y_pred : list float) : result float :=
  '(yt, yp) ← check_reg_targets y_true y_pred;
  Ok (fmean (zip_with (λ a b, abs (a - b)) yt yp)).

(** [joblib.dump] and [joblib.load]. *)
Definition joblib_dump (pipe : Pipeline) (path : Path) : M () :=
  write_file path (JoblibFile pipe).

Definition joblib_load (path : Path) : M Pipeline := λ w,
  match files w !! path with
  | Some (JoblibFile pipe) => (Ok pipe, w)
  | Some _ => (Err (UnpicklingError path), w)
  | None => (Err (FileNotFoundError path), w)
  end.

(** The number under a cell, for the plots. *)
Definition cell_value (c : cell) : float :=
  match c with Num x => x | Str _ => nan end.

(** ** create_db.py *)

Module create_db.

(** A [CREATE TABLE IF NOT EXISTS] statement: the table and its columns
    (the column types play no part below). *)
Definition SCHEMA_TRAIN : string * list string :=
  ("locations_train",
   ["lat"; "lon"; "foot_traffic"; "rent_per_sqm"; "competition";
    "median_income"; "office_density"; "weekend_activity";
    "events_per_month"; "coffee_price"; "promo_spend"; "profit"]).

Definition SCHEMA_CAND : string * list string :=
  ("locations_candidates",
   ["lat"; "lon"; "foot_traffic"; "rent_per_sqm"; "competition";
    "median_income"; "office_density"; "weekend_activity";
    "events_per_month"; "coffee_price"; "promo_spend"]).

Definition REQUIRED_TRAIN : gset string :=
  list_to_set
    ["lat"; "lon"; "foot_traffic"; "rent_per_sqm"; "competition";
     "median_income"; "office_density"; "weekend_activity";
     "events_per_month"; "coffee_price"; "promo_spend"; "profit"].

Definition REQUIRED_CAND : gset string := REQUIRED_TRAIN ∖ {["profit"]}.

(** The order of Python strings, on the ASCII names used here. *)
Definition str_le (a b : string) : Prop := String.leb a b = true.

#[export] Instance str_le_dec a b : Decision (str_le a b).
Proof. unfold str_le. apply _. Defined.

#[export] Instance str_le_total : Total str_le.
Proof. intros a b. apply String.leb_total. Qed.

(** [sorted(s)] for a set of strings. *)
Definition sorted (s : gset string) : list string :=
  merge_sort str_le (elements s).

Definition _validate_columns (df : DataFrame) (required : gset string) (table : string)
  : result () :=
  let missing := required ∖ list_to_set (columns df) in
  if decide (missing = ∅) then Ok ()
  else Err (ValueError (MissingColumns table (sorted missing))).

(** [pd.read_csv(csv_path)]; the text of a CSV file is kept parsed. *)
Definition read_csv (csv_path : Path) : M DataFrame := λ w,
  match files w !! csv_path with
  | Some (CsvFile df) => (Ok df, w)
  | Some _ => (Err (ParserError csv_path), w)
  | None => (Err (FileNotFoundError csv_path), w)
  end.

(** [con.execute("CREATE TABLE IF NOT EXISTS ...")]. No transaction is open
    when it runs, so SQLite applies it at once. *)
Definition execute_create (schema : string * list string) (con : Path) : M () := λ w,
  let d := connect con w in
  match d !! schema.1 with
  | Some _ => set_db con d w
  | None => set_db con (<[schema.1 := mkDataFrame schema.2 []]> d) w
  end.

(** [df.to_sql(table, con, if_exists="replace", index=False)], where it
    goes through (values that SQLite cannot store are not modelled); pandas
    commits when the rows are in. *)
Definition to_sql (df : DataFrame) (table : string) (con : Path) : M () := λ w,
  set_db con (<[table := df]> (connect con w)) w.

Definition _load_csv_to_db (csv_path : Path) (table : string) (con : Path) : M () :=
  df ← read_csv csv_path;
  let required :=
    if decide (table = "locations_train") then REQUIRED_TRAIN else REQUIRED_CAND in
  lift (_validate_columns df required table);;
  to_sql df table con.

Record Namespace := mkArgs {
  train : Path;
  candidates : Path;
  db : Path
}.

Definition main (args : Namespace) : M () :=
  let con := db args in
  execute_create SCHEMA_TRAIN con;;
  execute_create SCHEMA_CAND con;;
  _load_csv_to_db (train args) "locations_train" con;;
  _load_csv_to_db (candidates args) "locations_candidates" con.

End create_db.

(** ** train_regression.py *)

Module train_regression.

Definition FEATURES : list string :=
  ["foot_traffic"; "rent_per_sqm"; "competition"; "median_income"; "office_density";
   "weekend_activity"; "events_per_month"; "coffee_price"; "promo_spend";
   "demand_adj"; "wknd_traffic"; "price_income"; "promo_comp_adj"].

Definition TARGET : string := "profit".

Arguments FEATURES : simpl never.

Definition run_training (lib : Lib) (db_path sql_path outdir : Path) : M () :=
  outdir ← ensure_outdir outdir;
  charts_dir ← ensure_outdir (outdir / "charts");
  sql_text ← read_text sql_path;
  con_executescript lib db_path sql_text;;
  train_df ← read_sql_query "features_train" db_path;
  X ← lift (getitem_list train_df FEATURES);
  y ← lift (getitem train_df TARGET);
  '(X_train, X_test, y_train, y_test) ← train_test_split lib X y 25 100 (Some 42%Z);
  pipe ← lift (Pipeline_fit lib FEATURES 0.05 0.20 42 X_train y_train);
  y_pred_test ← lift (Pipeline_predict pipe X_test);
  (* Metrics *)
  r2 ← lift (r2_score y_test y_pred_test);
  mae ← lift (mean_absolute_error y_test y_pred_test);
  let metrics := [("r2", r2); ("mae", mae)] in
  save_json metrics (outdir / "metrics.json");;
  (* Diagnostics on full training set *)
  y_pred_all ← lift (Pipeline_predict pipe X);
  preds ← lift (getitem_list train_df ["lat"; "lon"]);
  preds ← lift (setitem preds "actual_profit" y);
  preds ← lift (setitem preds "predicted_profit" (map Num y_pred_all));
  save_csv preds (outdir / "predictions_train.csv");;
  plot_scatter_actual_vs_pred (map cell_value y) y_pred_all
    (charts_dir / "actual_vs_predicted.png") "Actual vs Predicted Profit";;
  let residuals := zip_with (λ a b, (cell_value a - b)%float) y y_pred_all in
  plot_hist residuals (charts_dir / "residuals_hist.png") "Residuals (Actual - Predicted)";;
  (* Feature importance (std. coefficients after scaling) *)
  let coefs := coef_ (model pipe) in
  importance ← lift (DataFrame_of_dict "feature" (map Str FEATURES)
                                       "importance" (map Num coefs));
  let importance := reindex importance (nargsort_descending lib (map abs coefs)) in
  save_csv importance (outdir / "feature_importance.csv");;
  names ← lift (getitem importance "feature");
  values ← lift (getitem importance "importance");
  plot_bar (take 15 names) (take 15 values)
    (charts_dir / "feature_importance.png") "Feature Importance (Std. Coefficients)";;
  (* Persist model *)
  joblib_dump pipe (outdir / "model.joblib").

Record Namespace := mkArgs {
  db : Path;
  sql : Path;
  outdir : Path
}.

Definition main (lib : Lib) (args : Namespace) : M () :=
  run_training lib (db args) (sql args) (outdir args).

End train_regression.

(** ** score_new_sites.py *)

Module score_new_sites.

Definition FEATURES : list string :=
  ["foot_traffic"; "rent_per_sqm"; "competition"; "median_income"; "office_density";
   "weekend_activity"; "events_per_month"; "coffee_price"; "promo_spend";
   "demand_adj"; "wknd_traffic"; "price_income"; "promo_comp_adj"].

Arguments FEATURES : simpl never.

Definition run_scoring (lib : Lib) (db_path sql_path model_path outdir : Path) : M () :=
  outdir ← ensure_outdir outdir;
  sql_text ← read_text sql_path;
  con_executescript lib db_path sql_text;;
  X_cand ← read_sql_query "features_candidates" db_path;
  pipe ← joblib_load model_path;
  X ← lift (getitem_list X_cand FEATURES);
  preds ← lift (Pipeline_predict pipe X);
  scored ← lift (getitem_list X_cand ["lat"; "lon"]);
  scored ← lift (setitem scored "predicted_profit" (map Num preds));
  save_csv scored (outdir / "scored_candidates.csv");;
  mret ().

Record Namespace := mkArgs {
  db : Path;
  sql : Path;
  model : Path;
  outdir : Path
}.

Definition main (lib : Lib) (args : Namespace) : M () :=
  run_scoring lib (db args) (sql args) (model args) (outdir args).

End score_new_sites.

(** ** A concrete library and concrete worlds

    One instance of [Lib], small enough to run inside Rocq, and a world with
    a database and the SQL script; they are the concrete inputs at which
    the statements below are exercised. *)

Module Demo.

(** A script whose views exist already: it leaves the database as it is. *)
Definition executescript (sql_text : string) (d : DB) : result DB := Ok d.

(** A generator that rotates [0 .. n-1] by its state. *)
Definition permutation (g : Z) (n : nat) : list nat * Z :=
  (rotate (Z.to_nat (g `mod` Z.of_nat n)) (seq 0 n), (g + 1)%Z).

Definition column (X : list (list float)) (j : nat) : list float :=
  map (λ r, nth j r 0%float) X.

Definition matrix_columns (X : list (list float)) : list (list float) :=
  map (column X) (seq 0 (length (hd [] X))).

(** Mean and standard deviation of every column; a constant column is
    left unscaled. *)
Definition scaler_fit (X : list (list float)) : StandardScaler :=
  let std c :=
    let s := sqrt (fmean (map (λ x, sq (x - fmean c)%float) c)) in
    if (s =? 0)%float then 1%float else s in
  mkScaler (map fmean (matrix_columns X)) (map std (matrix_columns X)).

Definition soft_threshold (r t : float) : float :=
  if (t <? r)%float then (r - t)%float
  else if (r <? - t)%float then (r + t)%float
  else 0%float.

(** A stand-in for the solver: every coefficient is the first coordinate
    update from zero (the soft-thresholded, shrunk mean product of its
    scaled column with the centred targets), the intercept is the mean
    target. A constant column, scaled to zeros, gets the coefficient 0, as
    it does from the real solver. *)
Definition enet_fit (alpha l1_ratio : float) (random_state : Z)
    (X : list (list float)) (y : list float) : ElasticNet :=
  let b := fmean y in
  let rho c := fmean (zip_with (λ x yi, x * (yi - b))%float c y) in
  let coef c :=
    (soft_threshold (rho c) (alpha * l1_ratio) / (1 + alpha * (1 - l1_ratio)))%float in
  mkElasticNet (map coef (matrix_columns X)) b.

(** Argsort by insertion, from the right. With [<=] to decide whether the
    new item goes in front, equal keys keep their order; with [<] they end
    up reversed. Both return the positions in ascending order of the keys. *)
Fixpoint insert_by (before : float → float → bool) (x : float * nat)
    (l : list (float * nat)) : list (float * nat) :=
  match l with
  | [] => [x]
  | y :: l' => if before x.1 y.1 then x :: y :: l' else y :: insert_by before x l'
  end.

Definition argsort_by (before : float → float → bool) (items : list float) : list nat :=
  map snd (foldr (insert_by before) [] (zip items (seq 0 (length items)))).

Definition lib : Lib :=
  mkLib executescript permutation scaler_fit enet_fit (argsort_by PrimFloat.leb).

Definition lib_unstable : Lib :=
  mkLib executescript permutation scaler_fit enet_fit (argsort_by PrimFloat.ltb).

(** Eight labelled sites; every one of them has four events a month and
    sells its coffee at 3.5. *)
Definition features_train : DataFrame :=
  mkDataFrame
    ["lat"; "lon"; "foot_traffic"; "rent_per_sqm"; "competition"; "median_income";
     "office_density"; "weekend_activity"; "events_per_month"; "coffee_price"; "promo_spend";
     "demand_adj"; "wknd_traffic"; "price_income"; "promo_comp_adj"; "profit"]
    [[Num 40.1875; Num (-73.890625); Num 663; Num 79; Num 7; Num 62000; Num 37; Num 0.5;
      Num 4; Num 3.5; Num 750; Num 82.875; Num 331.5; Num 16.75; Num 93.75; Num (-7)];
     [Num 40.015625; Num (-73.125); Num 345; Num 31; Num 0; Num 68000; Num 25; Num 1;
      Num 4; Num 3.5; Num 1000; Num 345; Num 345; Num 15; Num 1000; Num 270];
     [Num 40.453125; Num (-73.578125); Num 236; Num 44; Num 1; Num 68000; Num 1; Num 1;
      Num 4; Num 3.5; Num 900; Num 118; Num 236; Num 17.5; Num 450; Num 180];
     [Num 40.453125; Num (-73.5625); Num 204; Num 30; Num 7; Num 71000; Num 17; Num 1;
      Num 4; Num 3.5; Num 400; Num 25.5; Num 204; Num 25; Num 50; Num (-150)];
     [Num 40.40625; Num (-73.09375); Num 271; Num 33; Num 7; Num 36000; Num 18; Num 1;
      Num 4; Num 3.5; Num 0; Num 33.875; Num 271; Num 18.5; Num 0; Num (-188)];
     [Num 40.609375; Num (-73.65625); Num 584; Num 70; Num 7; Num 34000; Num 36; Num 0.5;
      Num 4; Num 3.5; Num 500; Num 73; Num 292; Num 10.5; Num 62.5; Num (-144)];
     [Num 40.34375; Num (-73.375); Num 1187; Num 72; Num 0; Num 38000; Num 15; Num 0.25;
      Num 4; Num 3.5; Num 700; Num 1187; Num 296.75; Num 36; Num 700; Num 521];
     [Num 40.53125; Num (-73.59375); Num 721; Num 44; Num 1; Num 56000; Num 24; Num 0.25;
      Num 4; Num 3.5; Num 300; Num 360.5; Num 180.25; Num 5; Num 150; Num 263]]%float.

(** Three candidate sites. *)
Definition features_candidates : DataFrame :=
  mkDataFrame
    ["lat"; "lon"; "foot_traffic"; "rent_per_sqm"; "competition"; "median_income";
     "office_density"; "weekend_activity"; "events_per_month"; "coffee_price"; "promo_spend";
     "demand_adj"; "wknd_traffic"; "price_income"; "promo_comp_adj"]
    [[Num 40.875; Num (-73.515625); Num 415; Num 43; Num 7; Num 84000; Num 38; Num 1.25;
      Num 1; Num 2.5; Num 200; Num 51.875; Num 518.75; Num 18.5; Num 25];
     [Num 40.015625; Num (-73.734375); Num 209; Num 62; Num 3; Num 54000; Num 4; Num 0.25;
      Num 1; Num 3; Num 900; Num 52.25; Num 52.25; Num 20.5; Num 225];
     [Num 40.609375; Num (-73.453125); Num 580; Num 78; Num 1; Num 67000; Num 30; Num 1.25;
      Num 2; Num 4; Num 250; Num 290; Num 725; Num 14.75; Num 125]]%float.

Definition db_path : Path := ["coffee.db"].
Definition sql_path : Path := ["src"; "queries.sql"].
Definition outdir : Path := ["outputs"].
Definition model_path : Path := ["outputs"; "model.joblib"].

Definition database (train cand : DataFrame) : DB :=
  {[ "features_train" := train; "features_candidates" := cand ]}.

(** Before training: the script and the database, no output yet. *)
Definition world_of (d : DB) : World :=
  mkWorld {[ sql_path := TextFile "-- views" ]} ∅ {[ db_path := d ]} 0.

Definition world0 : World := world_of (database features_train features_candidates).

(** After training. *)
Definition world1 : World :=
  (train_regression.run_training lib db_path sql_path outdir world0).2.

(** The pipeline it has persisted. *)
Definition pipe1 : Pipeline :=
  match files world1 !! model_path with
  | Some (JoblibFile pipe) => pipe
  | _ => mkPipeline [] (mkScaler [] []) (mkElasticNet [] 0)
  end.


(** A training view with a single record. *)
Definition features_train_single : DataFrame :=
  mkDataFrame (columns features_train) (take 1 (rows features_train)).

Definition world_single : World :=
  world_of (database features_train_single features_candidates).

(** The training view with other labels on the records at positions 2 and
    3, which the split under [lib] puts in the evaluation partition. *)
Definition features_train_relabelled : DataFrame :=
  mkDataFrame (columns features_train)
    (imap (λ i r, if decide (i = 2 ∨ i = 3)
                  then take 15 r ++ [Num 1000%float] else r)
       (rows features_train)).

Definition world0_relabelled : World :=
  world_of (database features_train_relabelled features_candidates).



(** Ingestion: a training CSV without its [rent_per_sqm] column, a
    candidates CSV, and no database yet. *)
Definition train_csv : Path := ["data"; "locations_train.csv"].
Definition candidates_csv : Path := ["data"; "locations_candidates.csv"].

Definition csv_without_rent : DataFrame :=
  mkDataFrame
    ["lat"; "lon"; "foot_traffic"; "competition"; "median_income"; "office_density";
     "weekend_activity"; "events_per_month"; "coffee_price"; "promo_spend"; "profit"]
    [[Num 40.5; Num (-73.5); Num 300; Num 2; Num 50000; Num 10;
      Num 0.5; Num 4; Num 3.5; Num 100; Num 120]]%float.

Definition csv_candidates : DataFrame :=
  mkDataFrame
    ["lat"; "lon"; "foot_traffic"; "rent_per_sqm"; "competition"; "median_income";
     "office_density"; "weekend_activity"; "events_per_month"; "coffee_price"; "promo_spend"]
    [[Num 40.25; Num (-73.25); Num 500; Num 40; Num 1; Num 60000;
      Num 12; Num 0.75; Num 6; Num 3; Num 200]]%float.

Definition ingest_args : create_db.Namespace :=
  create_db.mkArgs train_csv candidates_csv db_path.

Definition ingest_world : World :=
  mkWorld {[ train_csv := CsvFile csv_without_rent; candidates_csv := CsvFile csv_candidates ]}
    ∅ ∅ 0.

End Demo.

(** * Notions used in the statements *)

(** The pure parts of the scripts are named here, with the predicates the
    statements are written in. *)


(** The feature values and the prediction of one record: the cells the
    record has under the columns the pipeline was fitted on, scaled and fed
    to the linear model. *)
Definition features_of (pipe : Pipeline) (cols : list string) (r : list cell) : list float :=
  map (λ c, cell_value (row_get cols r c)) (pre_columns pipe).

Definition predict_record (pipe : Pipeline) (cols : list string) (r : list cell) : float :=
  decision_function (model pipe) (scale_row (pre_scaler pipe) (features_of pipe cols r)).

(** A result that is not a [KeyError]. *)
Definition no_key_error {A} (r : result A) : Prop :=
  match r with Err (KeyError _) => False | _ => True end.


(** The part of [run_scoring] that touches no file: selection, prediction
    and the assembly of the output table. *)
Definition scored_table (pipe : Pipeline) (X_cand : DataFrame) : result DataFrame :=
  X ← getitem_list X_cand score_new_sites.FEATURES;
  preds ← Pipeline_predict pipe X;
  scored ← getitem_list X_cand ["lat"; "lon"];
  setitem scored "predicted_profit" (map Num preds).

(** What [run_scoring] writes: one record per input record, in the order of
    the input, with the coordinates and the prediction of that record. *)
Definition scored_frame (pipe : Pipeline) (X_cand : DataFrame) : DataFrame :=
  mkDataFrame ["lat"; "lon"; "predicted_profit"]
    (map (λ r, [row_get (columns X_cand) r "lat"; row_get (columns X_cand) r "lon";
                Num (predict_record pipe (columns X_cand) r)])
       (rows X_cand)).



(** [train_test_split] with an integer seed, which leaves the world alone. *)
Definition shuffle_split (lib : Lib) (X : DataFrame) (y : list cell) (num den : nat) (seed : Z)
  : result (DataFrame * DataFrame * list cell * list cell) :=
  let n_samples := length (rows X) in
  let n_test := n_test_of num den n_samples in
  let n_train := n_samples - n_test in
  if decide (n_train = 0) then Err (ValueError (EmptyTrainSet n_samples))
  else
    let perm := (permutation lib seed n_samples).1 in
    let '(train, test) := split_indices perm n_train n_test in
    Ok (mkDataFrame (columns X) (take_rows [] (rows X) train),
        mkDataFrame (columns X) (take_rows [] (rows X) test),
        take_rows NA y train,
        take_rows NA y test).

(** The parts of [run_training] between two writes. *)
Definition fit_and_evaluate (lib : Lib) (train_df : DataFrame)
  : result (DataFrame * list cell * Pipeline * list (string * float)) :=
  X ← getitem_list train_df train_regression.FEATURES;
  y ← getitem train_df train_regression.TARGET;
  '(X_train, X_test, y_train, y_test) ← shuffle_split lib X y 25 100 42;
  pipe ← Pipeline_fit lib train_regression.FEATURES 0.05 0.20 42 X_train y_train;
  y_pred_test ← Pipeline_predict pipe X_test;
  r2 ← r2_score y_test y_pred_test;
  mae ← mean_absolute_error y_test y_pred_test;
  Ok (X, y, pipe, [("r2", r2); ("mae", mae)]).

Definition diagnostic_table (pipe : Pipeline) (X : DataFrame) (y : list cell)
    (train_df : DataFrame) : result (list float * DataFrame) :=
  y_pred_all ← Pipeline_predict pipe X;
  preds ← getitem_list train_df ["lat"; "lon"];
  preds ← setitem preds "actual_profit" y;
  preds ← setitem preds "predicted_profit" (map Num y_pred_all);
  Ok (y_pred_all, preds).

Definition importance_table (lib : Lib) (pipe : Pipeline) : result DataFrame :=
  let coefs := coef_ (model pipe) in
  importance ← DataFrame_of_dict "feature" (map Str train_regression.FEATURES)
                                 "importance" (map Num coefs);
  Ok (reindex importance (nargsort_descending lib (map abs coefs))).

Definition importance_series (importance : DataFrame) : result (list cell * list cell) :=
  names ← getitem importance "feature";
  values ← getitem importance "importance";
  Ok (names, values).

(** The world after [save_csv] or [save_json]. *)
Definition save (w : World) (p : Path) (f : File) : World :=
  with_file (with_dir w (parent p)) p f.

(** Every row as wide as the header. *)
Definition rectangular (df : DataFrame) : Prop :=
  Forall (λ r, length r = length (columns df)) (rows df).

(** The positions [train_test_split] puts in the training and in the
    evaluation partition of [n] records, under the seed of the script. *)
Definition train_indices (lib : Lib) (n : nat) : list nat :=
  (split_indices (permutation lib 42 n).1 (n - n_test_of 25 100 n) (n_test_of 25 100 n)).1.

Definition test_indices (lib : Lib) (n : nat) : list nat :=
  (split_indices (permutation lib 42 n).1 (n - n_test_of 25 100 n) (n_test_of 25 100 n)).2.

(** [a] may stand before [b] in a descending order with the NaN last. *)
Definition key_desc (a b : float) : Prop :=
  is_nan b = true ∨ (b <=? a)%float = true.

(** The array that [nargsort_descending] hands to [argsort]: the items
    that are not NaN, reversed. *)
Definition argsort_input (items : list float) : list float :=
  rev (map (λ i, nth i items nan)
         (filter (λ i, is_nan (nth i items nan) = false) (seq 0 (length items)))).

(** What is asked of [argsort] on the array [keys]: it returns the
    positions of [keys], each once, in an ascending order of the keys. How
    it orders equal keys is left open, as it is for numpy's default sort. *)
Definition argsort_contract (keys : list float) (out : list nat) : Prop :=
  out ≡ₚ seq 0 (length keys)
  ∧ StronglySorted (λ i j, (nth i keys nan <=? nth j keys nan)%float = true) out.

(** The signed importance carried by a row of the ranking. *)
Definition importance_of (r : list cell) : float := cell_value (nth 1 r NA).

Definition ranked_before (r1 r2 : list cell) : Prop :=
  key_desc (abs (importance_of r1)) (abs (importance_of r2)).

(** Closed goals about concrete data are decided by evaluation. *)
Ltac decide_by_computation := apply (bool_decide_unpack _); vm_compute; exact I.

(** A goal about every member of a concrete list, member by member. *)
Ltac for_each_member tac :=
  apply Forall_forall;
  match goal with
  | |- Forall ?P ?l => let l' := eval vm_compute in l in change (Forall P l')
  end;
  repeat (apply List.Forall_cons; [tac|]);
  apply List.Forall_nil.

(** * Further notions: what the scripts leave alone, and more inputs *)

(** The seven files a complete run of [run_training] writes. *)
Definition training_outputs (outdir : Path) : list Path :=
  [ (outdir / "metrics.json")%path;
    (outdir / "predictions_train.csv")%path;
    (outdir / "charts" / "actual_vs_predicted.png")%path;
    (outdir / "charts" / "residuals_hist.png")%path;
    (outdir / "feature_importance.csv")%path;
    (outdir / "charts" / "feature_importance.png")%path;
    (outdir / "model.joblib")%path ].

(** [w'] differs from [w] at most in the files at the paths [P], in the
    database at [db_path] and in directories that have been added. *)
Definition frame (P : list Path) (db_path : Path) (w w' : World) : Prop :=
  (∀ p, p ∉ P → files w' !! p = files w !! p)
  ∧ (∀ q, q ≠ db_path → dbs w' !! q = dbs w !! q)
  ∧ np_random w' = np_random w
  ∧ dirs w ⊆ dirs w'.

(** A computation that stays within such a frame, from every world. *)
Definition keeps {A} (P : list Path) (db_path : Path) (m : M A) : Prop :=
  ∀ w, frame P db_path w (m w).2.

(** Membership in a list that is written out. *)
Ltac in_list := repeat first [apply list_elem_of_here | apply list_elem_of_further].

(** What [CREATE TABLE IF NOT EXISTS] makes of a database. *)
Definition create_table_if_not_exists (schema : string * list string) (d : DB) : DB :=
  match d !! schema.1 with
  | Some _ => d
  | None => <[schema.1 := mkDataFrame schema.2 []]> d
  end.

(** A result that is a value or a [ValueError]. *)
Definition value_or_value_error {A} (r : result A) : Prop :=
  match r with Ok _ | Err (ValueError _) => True | Err _ => False end.


(** ** The file system the scripts need *)

(** The scripts make directories, read files and write files, and the
    model lets each of these calls go through. The real calls raise when a
    regular file stands where a directory is to be made, or a directory
    where a file is to be read or written; the predicates below say of a
    world that neither is the case. *)

Definition is_file (w : World) (p : Path) : Prop := is_Some (files w !! p).

(** [p] is a directory of [w]: a recorded directory is at [p] or below it,
    or a file is below it. *)
Definition is_directory (w : World) (p : Path) : Prop :=
  set_Exists (λ q, p `prefix_of` q) (dirs w)
  ∨ set_Exists (λ q, p `prefix_of` q ∧ q ≠ p) (dom (files w)).

(** [mkdir(parents=True, exist_ok=True)] on [p] goes through: no regular
    file is at [p] or at a parent of it. *)
Definition may_be_directory (w : World) (p : Path) : Prop :=
  Forall (λ q, ¬ is_file w q) (path_and_parents p).

(** The directories [made] can be made, and every path that is read or
    written is free for a file: it is not a directory, in [w] or once
    [made] are there, and no regular file is at a parent of it. *)
Definition paths_ok (w : World) (made read written : list Path) : Prop :=
  Forall (may_be_directory w) made
  ∧ Forall (λ p, ¬ is_directory w p
                 ∧ Forall (λ d, ¬ p `prefix_of` d) made
                 ∧ may_be_directory w (parent p))
      (read ++ written).

#[export] Instance is_file_dec w p : Decision (is_file w p).
Proof. unfold is_file. apply _. Defined.

#[export] Instance is_directory_dec w p : Decision (is_directory w p).
Proof. unfold is_directory. apply _. Defined.

#[export] Instance may_be_directory_dec w p : Decision (may_be_directory w p).
Proof. unfold may_be_directory. apply _. Defined.

#[export] Instance paths_ok_dec w made read written : Decision (paths_ok w made read written).
Proof. unfold paths_ok. apply _. Defined.



(** ** Further concrete inputs *)

Module Cases.

(** A training CSV with every required column and one more, the name of
    the site. *)
Definition csv_train : DataFrame :=
  mkDataFrame
    ["site_name"; "lat"; "lon"; "foot_traffic"; "rent_per_sqm"; "competition";
     "median_income"; "office_density"; "weekend_activity"; "events_per_month";
     "coffee_price"; "promo_spend"; "profit"]
    [[Str "Harbour"; Num 40.5; Num (-73.5); Num 300; Num 35; Num 2; Num 50000; Num 10;
      Num 0.5; Num 4; Num 3.5; Num 100; Num 120];
     [Str "Station"; Num 40.25; Num (-73.75); Num 800; Num 60; Num 5; Num 64000; Num 30;
      Num 0.25; Num 2; Num 3; Num 400; Num 310]]%float.

(** Both CSV files in place, and a database that holds another table. *)
Definition ingest_world : World :=
  mkWorld {[ Demo.train_csv := CsvFile csv_train;
             Demo.candidates_csv := CsvFile Demo.csv_candidates ]}
    ∅ {[ Demo.db_path := {[ "notes" := mkDataFrame ["text"] [[Str "survey of May"]] ]} ]} 0.

(** The training CSV alone. *)
Definition ingest_world_train_only : World :=
  mkWorld {[ Demo.train_csv := CsvFile csv_train ]} ∅ ∅ 0.


(** The first four records of the demo training view. *)
Definition features_train_small : DataFrame :=
  mkDataFrame (columns Demo.features_train) (take 4 (rows Demo.features_train)).

(** A candidate view with the right columns and no record. *)
Definition features_candidates_empty : DataFrame :=
  mkDataFrame (columns Demo.features_candidates) [].

(** The world after the demo training, with the empty candidate view. *)
Definition world1_empty_view : World :=
  with_db Demo.world1 Demo.db_path (Demo.database Demo.features_train features_candidates_empty).

(** An artifact fitted elsewhere, on the latitude alone. *)
Definition pipe_foreign : Pipeline :=
  mkPipeline ["lat"] (mkScaler [40%float] [1%float]) (mkElasticNet [100%float] 0%float).

Definition world_foreign : World :=
  with_file Demo.world0 Demo.model_path (JoblibFile pipe_foreign).






(** The demo training view with the label of its last record missing. *)
Definition features_train_unlabelled : DataFrame :=
  mkDataFrame (columns Demo.features_train)
    (imap (λ i r, if decide (i = 7) then take 15 r ++ [NA] else r)
       (rows Demo.features_train)).

End Cases.

(** * Properties *)

(** ** Running the monad *)

Lemma bind_run {A B} (m : M A) (f : A → M B) (w : World) :
  (m ≫= f) w = match m w with (Ok a, w') => f a w' | (Err e, w') => (Err e, w') end.
Proof. reflexivity. Qed.

Lemma bind_ok {A B} (m : M A) (f : A → M B) (w w' : World) (a : A) :
  m w = (Ok a, w') → (m ≫= f) w = f a w'.
Proof. intros H. rewrite bind_run, H. reflexivity. Qed.

Lemma bind_err {A B} (m : M A) (f : A → M B) (w w' : World) (e : exn) :
  m w = (Err e, w') → (m ≫= f) w = (Err e, w').
Proof. intros H. rewrite bind_run, H. reflexivity. Qed.

Lemma bind_lift {A B} (r : result A) (f : A → M B) (w : World) :
  (lift r ≫= f) w = match r with Ok a => f a w | Err e => (Err e, w) end.
Proof. rewrite bind_run. unfold lift. destruct r; reflexivity. Qed.

Lemma ensure_outdir_run (p : Path) (w : World) :
  ensure_outdir p w = (Ok p, with_dir w p).
Proof. reflexivity. Qed.

Lemma save_csv_run (df : DataFrame) (p : Path) (w : World) :
  save_csv df p w = (Ok p, with_file (with_dir w (parent p)) p (CsvFile df)).
Proof. reflexivity. Qed.

Lemma save_json_run (obj : list (string * float)) (p : Path) (w : World) :
  save_json obj p w = (Ok p, with_file (with_dir w (parent p)) p (JsonFile obj)).
Proof. reflexivity. Qed.

Lemma plot_scatter_run y_true y_pred (p : Path) title (w : World) :
  plot_scatter_actual_vs_pred y_true y_pred p title w
  = (Ok p, with_file w p (PngFile (Scatter y_true y_pred title))).
Proof. reflexivity. Qed.

Lemma plot_hist_run series (p : Path) title (w : World) :
  plot_hist series p title w = (Ok p, with_file w p (PngFile (Hist series title))).
Proof. reflexivity. Qed.

Lemma plot_bar_run names values (p : Path) title (w : World) :
  plot_bar names values p title w = (Ok p, with_file w p (PngFile (Bar names values title))).
Proof. reflexivity. Qed.

Lemma read_text_run (p : Path) (w : World) (text : string) :
  files w !! p = Some (TextFile text) → read_text p w = (Ok text, w).
Proof. intros H. unfold read_text. by rewrite H. Qed.

Lemma con_executescript_run (lib : Lib) (db_path : Path) (sql_text : string) (w : World) d :
  executescript lib sql_text (connect db_path w) = Ok d →
  con_executescript lib db_path sql_text w = (Ok (), with_db w db_path d).
Proof. intros H. unfold con_executescript. by rewrite H. Qed.

Lemma connect_with_db (w : World) (db_path : Path) (d : DB) :
  connect db_path (with_db w db_path d) = d.
Proof. unfold connect, with_db. simpl. by rewrite lookup_insert_eq. Qed.

Lemma read_sql_query_run (relation : string) (db_path : Path) (w : World) df :
  connect db_path w !! relation = Some df →
  read_sql_query relation db_path w = (Ok df, w).
Proof. intros H. unfold read_sql_query. by rewrite H. Qed.

Lemma joblib_load_run (p : Path) (w : World) (pipe : Pipeline) :
  files w !! p = Some (JoblibFile pipe) → joblib_load p w = (Ok pipe, w).
Proof. intros H. unfold joblib_load. by rewrite H. Qed.

(** Both scripts start alike: read the SQL script, run it, read one view. *)
Lemma read_view_run {B} (lib : Lib) (db_path sql_path : Path) (relation : string)
    (k : DataFrame → M B) (w : World) sql_text d df :
  files w !! sql_path = Some (TextFile sql_text) →
  executescript lib sql_text (connect db_path w) = Ok d →
  d !! relation = Some df →
  (sql_text ← read_text sql_path;
   con_executescript lib db_path sql_text;;
   df ← read_sql_query relation db_path;
   k df) w
  = k df (with_db w db_path d).
Proof.
  intros Hsql Hscript Hview.
  rewrite (bind_ok _ _ _ _ _ (read_text_run _ _ _ Hsql)).
  rewrite (bind_ok _ _ _ _ _ (con_executescript_run _ _ _ _ _ Hscript)).
  rewrite (bind_ok _ _ _ (with_db w db_path d) df); [done|].
  apply read_sql_query_run. by rewrite connect_with_db.
Qed.


Lemma path_join_ne (p : Path) (a b : string) : a ≠ b → (p / a)%path ≠ (p / b)%path.
Proof. intros Hne [= ->]%app_inv_head. done. Qed.

Lemma path_join2_ne (p : Path) (a b c : string) : (p / a / b)%path ≠ (p / c)%path.
Proof.
  intros H. apply (f_equal length) in H. unfold path_join in H.
  rewrite !length_app in H. simpl in H. lia.
Qed.

(** ** Lists *)

Lemma filter_none {A} (P : A → Prop) `{∀ x, Decision (P x)} (l : list A) :
  (∀ x, x ∈ l → ¬ P x) → filter P l = [].
Proof.
  induction l as [|x l IH]; [done|]. intros Hall.
  rewrite filter_cons_False by (apply Hall; left).
  apply IH. intros y Hy. apply Hall. by right.
Qed.

Lemma zip_with_map_same {A B C D} (f : B → C → D) (g : A → B) (h : A → C) (l : list A) :
  zip_with f (map g l) (map h l) = map (λ x, f (g x) (h x)) l.
Proof. induction l as [|x l IH]; [done|]. simpl. by rewrite IH. Qed.

Lemma nth_map_lt {A B} (f : A → B) (l : list A) (i : nat) (d : B) (d' : A) :
  i < length l → nth i (map f l) d = f (nth i l d').
Proof.
  revert i. induction l as [|x l IH]; intros [|i] Hi; simpl in *; try lia; [done|].
  apply IH. lia.
Qed.

Lemma nth_zip_with_lt {A B C} (f : A → B → C) (l1 : list A) (l2 : list B) i d d1 d2 :
  i < length l1 → i < length l2 →
  nth i (zip_with f l1 l2) d = f (nth i l1 d1) (nth i l2 d2).
Proof.
  revert l2 i. induction l1 as [|x l1 IH]; intros [|y l2] [|i] H1 H2; simpl in *; try lia.
  - done.
  - apply IH; lia.
Qed.

Lemma map_nth_seq {A} (l : list A) (d : A) :
  map (λ k, nth k l d) (seq 0 (length l)) = l.
Proof.
  induction l as [|x l IH]; [done|]. simpl. f_equal.
  rewrite <- seq_shift, map_map. exact IH.
Qed.




Lemma take_rows_map_agree {A B} (f : A → B) (l l' : list A) (ind : list nat) (d : B) (d' : A) :
  length l = length l' →
  (∀ i, i ∈ ind → nth i l d' = nth i l' d') →
  take_rows d (map f l) ind = take_rows d (map f l') ind.
Proof.
  intros Hlen Hag. unfold take_rows. apply map_ext_in. intros i Hi%list_elem_of_In.
  destruct (decide (i < length l)) as [Hlt|Hge].
  - rewrite (nth_map_lt f l i d d' Hlt), (nth_map_lt f l' i d d') by lia.
    by rewrite Hag.
  - rewrite !nth_overflow; [done|rewrite length_map; lia|rewrite length_map; lia].
Qed.

Lemma StronglySorted_map_in {A B} (R1 : relation A) (R2 : relation B) (f : A → B) l :
  StronglySorted R1 l →
  (∀ x y, x ∈ l → y ∈ l → R1 x y → R2 (f x) (f y)) →
  StronglySorted R2 (map f l).
Proof.
  induction 1 as [|x l Hs IH Hx]; intros Himp; simpl; constructor.
  - apply IH. intros a b Ha Hb. apply Himp; by right.
  - apply Forall_fmap, Forall_forall. intros y Hy. simpl. apply Himp.
    + left.
    + by right.
    + rewrite Forall_forall in Hx. by apply Hx.
Qed.

Lemma StronglySorted_rev {A} (R : relation A) l :
  StronglySorted R l → StronglySorted (flip R) (rev l).
Proof.
  induction 1 as [|x l Hs IH Hx]; simpl; [constructor|].
  apply StronglySorted_app_2; [|done|repeat constructor].
  intros a b Ha%list_elem_of_In%in_rev%list_elem_of_In Hb%list_elem_of_singleton. subst b.
  rewrite Forall_forall in Hx. by apply Hx.
Qed.

Lemma StronglySorted_weaken {A} (R1 R2 : relation A) l :
  (∀ x y, R1 x y → R2 x y) → StronglySorted R1 l → StronglySorted R2 l.
Proof.
  intros Himp. induction 1 as [|x l Hs IH Hx]; constructor; [done|].
  rewrite Forall_forall in Hx. apply Forall_forall. intros y Hy. by apply Himp, Hx.
Qed.

Lemma StronglySorted_all {A} (R : relation A) l :
  (∀ x y, x ∈ l → y ∈ l → R x y) → StronglySorted R l.
Proof.
  induction l as [|x l IH]; intros H; constructor.
  - apply IH. intros a b Ha Hb. apply H; by right.
  - apply Forall_forall. intros y Hy. apply H; [left|by right].
Qed.

(** ** Data frames *)

Lemma row_get_map (f : string → cell) (cs : list string) (c : string) :
  c ∈ cs → row_get cs (map f cs) c = f c.
Proof.
  unfold row_get. induction cs as [|c' cs IH]; [by intros ?%elem_of_nil|].
  intros Hin. simpl. destruct (decide (c = c')) as [->|Hne]; [done|].
  apply elem_of_cons in Hin as [?|Hin]; [done|].
  specialize (IH Hin). destruct (index_of c cs); simpl in *; done.
Qed.

Lemma getitem_list_ok (df : DataFrame) (cols : list string) :
  (∀ c, c ∈ cols → c ∈ columns df) →
  getitem_list df cols
  = Ok (mkDataFrame cols (map (λ r, map (row_get (columns df) r) cols) (rows df))).
Proof.
  intros Hall. unfold getitem_list.
  rewrite filter_none; [done|]. intros c Hc Hn. auto.
Qed.

Lemma getitem_list_err (df : DataFrame) (cols : list string) (c : string) :
  c ∈ cols → c ∉ columns df →
  ∃ missing, getitem_list df cols = Err (KeyError missing)
    ∧ missing = filter (λ c, c ∉ columns df) cols ∧ c ∈ missing.
Proof.
  intros Hc Hn. unfold getitem_list.
  assert (c ∈ filter (λ c, c ∉ columns df) cols) as Hin
    by (apply list_elem_of_filter; done).
  destruct (filter (λ c, c ∉ columns df) cols) as [|m ms] eqn:E;
    [by apply elem_of_nil in Hin|].
  eexists. split; [reflexivity|]. split; done.
Qed.

Lemma getitem_list_inv (df : DataFrame) (cols : list string) (X : DataFrame) :
  getitem_list df cols = Ok X →
  (∀ c, c ∈ cols → c ∈ columns df)
  ∧ X = mkDataFrame cols (map (λ r, map (row_get (columns df) r) cols) (rows df)).
Proof.
  unfold getitem_list. destruct (filter _ cols) as [|m ms] eqn:E; [|done].
  intros [= <-]. split; [|done].
  intros c Hc. destruct (decide (c ∈ columns df)) as [|Hn]; [done|].
  assert (c ∈ filter (λ c, c ∉ columns df) cols) as Hin by (apply list_elem_of_filter; done).
  rewrite E in Hin. by apply elem_of_nil in Hin.
Qed.

Lemma getitem_ok (df : DataFrame) (c : string) :
  c ∈ columns df → getitem df c = Ok (map (λ r, row_get (columns df) r c) (rows df)).
Proof. intros Hc. unfold getitem. by destruct (decide _). Qed.

Lemma getitem_list_rectangular df cols X :
  getitem_list df cols = Ok X → rectangular X.
Proof.
  intros [_ ->]%getitem_list_inv. unfold rectangular. cbn [rows columns].
  apply Forall_fmap, Forall_true. intros r. simpl. by rewrite length_map.
Qed.

Lemma zip_with_snoc_rectangular (n : nat) (rs : list (list cell)) (vs : list cell) :
  Forall (λ r, length r = n) rs →
  Forall (λ r, length r = S n) (zip_with (λ r v, r ++ [v]) rs vs).
Proof.
  intros H. revert vs. induction H as [|r rs Hr _ IH]; intros [|v vs]; simpl; try done.
  constructor; [|apply IH]. rewrite length_app. simpl. lia.
Qed.

Lemma setitem_rectangular df c vals df' :
  setitem df c vals = Ok df' → rectangular df → rectangular df'.
Proof.
  unfold setitem. destruct (decide _); [|done]. intros [= <-] Hrect.
  unfold rectangular. cbn [rows columns]. rewrite length_app. simpl.
  rewrite Nat.add_1_r. by apply zip_with_snoc_rectangular.
Qed.

Lemma index_of_snoc (c : string) (cols : list string) :
  c ∉ cols → index_of c (cols ++ [c]) = Some (length cols).
Proof.
  induction cols as [|c' cols IH]; intros Hn; simpl.
  - by destruct (decide (c = c)).
  - destruct (decide (c = c')) as [->|_]; [exfalso; apply Hn; left|].
    rewrite IH; [done|]. intros ?. apply Hn. by right.
Qed.

(** The column just assigned reads back as the values assigned. *)
Lemma getitem_setitem df c vals df' :
  setitem df c vals = Ok df' → c ∉ columns df → rectangular df →
  getitem df' c = Ok vals.
Proof.
  unfold setitem. destruct (decide _) as [Hlen|]; [|done]. intros [= <-] Hn Hrect.
  unfold getitem. cbn [columns rows].
  destruct (decide _) as [_|Hc]; [|exfalso; apply Hc, elem_of_app; right; left].
  f_equal. unfold row_get. rewrite index_of_snoc by done.
  unfold rectangular in Hrect. revert vals Hlen.
  induction Hrect as [|r rs Hr _ IH]; intros [|v vs] Hlen; simpl in *; try done.
  rewrite IH by lia. f_equal.
  rewrite <- Hr. rewrite app_nth2 by lia. by rewrite Nat.sub_diag.
Qed.



(** ** The pipeline on one record

    The prediction for a record is a function of the cells that the record
    has under the columns the pipeline was fitted on. *)

Lemma mapM_as_float_inv (cells : list cell) (l : list float) :
  mapM as_float cells = Ok l → l = map cell_value cells.
Proof.
  revert l. induction cells as [|c cells IH]; intros l; simpl; [by intros [= <-]|].
  destruct c as [x|]; simpl; [|done].
  destruct (mapM as_float cells) as [k|]; simpl; [|done].
  intros [= <-]. by rewrite (IH k).
Qed.

Lemma mapM_rows_inv (X : list (list cell)) (Xf : list (list float)) :
  mapM (mapM as_float) X = Ok Xf → Xf = map (map cell_value) X.
Proof.
  revert Xf. induction X as [|r X IH]; intros Xf; simpl; [by intros [= <-]|].
  destruct (mapM as_float r) as [rf|] eqn:E; simpl; [|done].
  destruct (mapM (mapM as_float) X) as [k|]; simpl; [|done].
  intros [= <-]. by rewrite (IH k), (mapM_as_float_inv r rf).
Qed.



Lemma check_finite_inv allow_nan X Xf :
  check_finite allow_nan X = Ok Xf → Xf = X ∧ X ≠ [].
Proof.
  unfold check_finite. destruct (forallb _ X); [|done].
  destruct X; [done|]. by intros [= <-].
Qed.

Lemma projected_values (cols pcs : list string) (X : list (list cell)) :
  map (map cell_value) (map (λ r, map (row_get cols r) pcs) X)
  = map (λ r, map (λ c, cell_value (row_get cols r c)) pcs) X.
Proof.
  rewrite map_map. apply map_ext. intros r. by rewrite map_map.
Qed.

Lemma ColumnTransformer_select_inv (cols : list string) (X : DataFrame) Xs :
  ColumnTransformer_select cols X = Ok Xs →
  (∀ c, c ∈ cols → c ∈ columns X)
  ∧ Xs = map (λ r, map (λ c, cell_value (row_get (columns X) r c)) cols) (rows X)
  ∧ rows X ≠ [].
Proof.
  unfold ColumnTransformer_select.
  destruct (filter _ cols) as [|m ms] eqn:E; [|done].
  destruct (getitem_list X cols) as [Xc|] eqn:Eg; simpl; [|done].
  apply getitem_list_inv in Eg as [Hall ->]. simpl.
  unfold check_array.
  destruct (mapM (mapM as_float) _) as [Xf|] eqn:Em; simpl; [|done].
  apply mapM_rows_inv in Em. rewrite projected_values in Em. subst Xf.
  intros [-> Hne]%check_finite_inv. split; [done|]. split; [done|].
  intros Hr. rewrite Hr in Hne. done.
Qed.

Lemma Pipeline_predict_inv (pipe : Pipeline) (X : DataFrame) (preds : list float) :
  Pipeline_predict pipe X = Ok preds →
  (∀ c, c ∈ pre_columns pipe → c ∈ columns X)
  ∧ preds = map (predict_record pipe (columns X)) (rows X)
  ∧ rows X ≠ [].
Proof.
  unfold Pipeline_predict.
  destruct (ColumnTransformer_select _ X) as [Xs|] eqn:Es; simpl; [|done].
  apply ColumnTransformer_select_inv in Es as (Hall & -> & Hne).
  destruct (check_finite false _) as [Xt|] eqn:Ef; simpl; [|done].
  apply check_finite_inv in Ef as [-> _]. intros [= <-].
  split; [done|]. split; [|done]. rewrite !map_map. reflexivity.
Qed.


Lemma mapM_as_float_no_key_error (cells : list cell) : no_key_error (mapM as_float cells).
Proof.
  induction cells as [|c cells IH]; [done|]. simpl.
  destruct c; simpl; [|done]. by destruct (mapM as_float cells).
Qed.

Lemma check_array_no_key_error allow_nan (X : list (list cell)) :
  no_key_error (check_array allow_nan X).
Proof.
  unfold check_array.
  assert (no_key_error (mapM (mapM as_float) X)) as H.
  { induction X as [|r X IH]; [done|]. simpl.
    pose proof (mapM_as_float_no_key_error r) as Hr.
    destruct (mapM as_float r); simpl; [|done]. by destruct (mapM (mapM as_float) X). }
  destruct (mapM (mapM as_float) X) as [Xf|]; simpl; [|done].
  unfold check_finite. destruct (forallb _ Xf); [|done]. by destruct Xf.
Qed.

Lemma Pipeline_predict_no_key_error (pipe : Pipeline) (X : DataFrame) :
  no_key_error (Pipeline_predict pipe X).
Proof.
  unfold Pipeline_predict, ColumnTransformer_select, getitem_list.
  destruct (filter _ (pre_columns pipe)); [|done]. cbn [mbind result_bind].
  pose proof (check_array_no_key_error true
                (rows (mkDataFrame (pre_columns pipe)
                         (map (λ r, map (row_get (columns X) r) (pre_columns pipe)) (rows X)))))
    as H.
  destruct (check_array true _) as [Xs|]; cbn [mbind result_bind]; [|done].
  unfold check_finite. destruct (forallb _ _); [|done].
  by destruct (map (scale_row (pre_scaler pipe)) Xs).
Qed.

Lemma features_of_projected pipe (cols sel : list string) (r : list cell) :
  (∀ c, c ∈ pre_columns pipe → c ∈ sel) →
  features_of pipe sel (map (row_get cols r) sel) = features_of pipe cols r.
Proof.
  intros Hsub. unfold features_of. apply map_ext_in. intros c Hc%list_elem_of_In.
  by rewrite row_get_map by auto.
Qed.

Lemma predict_record_projected pipe (cols sel : list string) (r : list cell) :
  (∀ c, c ∈ pre_columns pipe → c ∈ sel) →
  predict_record pipe sel (map (row_get cols r) sel) = predict_record pipe cols r.
Proof. intros Hsub. unfold predict_record. by rewrite features_of_projected. Qed.


(** ** Ingestion ([create_db.py]) *)

Section ingestion.
Import create_db.

Lemma sorted_spec (s : gset string) :
  Sorted str_le (sorted s) ∧ NoDup (sorted s) ∧ ∀ c, c ∈ sorted s ↔ c ∈ s.
Proof.
  unfold sorted. split; [apply (Sorted_merge_sort str_le)|].
  pose proof (merge_sort_Permutation str_le (elements s)) as Hp.
  split.
  - rewrite Hp. apply NoDup_elements.
  - intros c. rewrite Hp. apply elem_of_elements.
Qed.

Lemma validate_columns_missing df required table c :
  c ∈ required → c ∉ columns df →
  _validate_columns df required table
  = Err (ValueError (MissingColumns table (sorted (required ∖ list_to_set (columns df))))).
Proof.
  intros Hc Hn. unfold _validate_columns. cbv zeta.
  destruct (decide _) as [He|]; [|reflexivity].
  exfalso. assert (c ∈ required ∖ (list_to_set (columns df) : gset string)) as Hin
    by (apply elem_of_difference; split; [done|by rewrite elem_of_list_to_set]).
  rewrite He in Hin. set_solver.
Qed.

Lemma load_csv_missing csv_path table con df w c :
  files w !! csv_path = Some (CsvFile df) →
  let required :=
    if decide (table = "locations_train") then REQUIRED_TRAIN else REQUIRED_CAND in
  c ∈ required → c ∉ columns df →
  _load_csv_to_db csv_path table con w
  = (Err (ValueError (MissingColumns table (sorted (required ∖ list_to_set (columns df))))), w).
Proof.
  intros Hf required Hc Hn. unfold _load_csv_to_db.
  rewrite (bind_ok _ _ w w df) by (unfold read_csv; by rewrite Hf).
  rewrite bind_run. unfold lift. fold required.
  by rewrite (validate_columns_missing df required table c).
Qed.

Lemma connect_set_db con d w w' :
  set_db con d w = (Ok (), w') → connect con w' = d ∧ files w' = files w.
Proof.
  unfold set_db, connect. intros [= <-]. simpl. by rewrite lookup_insert_eq.
Qed.

Lemma execute_create_run schema con w :
  ∃ w', execute_create schema con w = (Ok (), w')
    ∧ files w' = files w
    ∧ connect con w'
      = match connect con w !! schema.1 with
        | Some _ => connect con w
        | None => <[schema.1 := mkDataFrame schema.2 []]> (connect con w)
        end.
Proof.
  unfold execute_create. cbv zeta.
  destruct (connect con w !! schema.1) eqn:E; eexists; (split; [reflexivity|]);
    (split; [reflexivity|]); unfold set_db, connect; simpl; by rewrite lookup_insert_eq.
Qed.

Lemma execute_create_lookup schema con w w' :
  execute_create schema con w = (Ok (), w') →
  connect con w' !! schema.1
  = Some (default (mkDataFrame schema.2 []) (connect con w !! schema.1)).
Proof.
  intros H. destruct (execute_create_run schema con w) as (w1 & H1 & _ & Hc).
  rewrite H1 in H. injection H as <-. rewrite Hc.
  destruct (connect con w !! schema.1) eqn:E; simpl; [done|by rewrite lookup_insert_eq].
Qed.

Lemma execute_create_other schema con w w' t :
  execute_create schema con w = (Ok (), w') → t ≠ schema.1 →
  connect con w' !! t = connect con w !! t.
Proof.
  intros H Hne. destruct (execute_create_run schema con w) as (w1 & H1 & _ & Hc).
  rewrite H1 in H. injection H as <-. rewrite Hc.
  destruct (connect con w !! schema.1) eqn:E; [done|by rewrite lookup_insert_ne].
Qed.

Lemma load_csv_ok csv_path table con df w :
  files w !! csv_path = Some (CsvFile df) →
  (∀ c, c ∈ (if decide (table = "locations_train") then REQUIRED_TRAIN else REQUIRED_CAND) →
        c ∈ columns df) →
  ∃ w', _load_csv_to_db csv_path table con w = (Ok (), w')
    ∧ files w' = files w
    ∧ connect con w' = <[table := df]> (connect con w).
Proof.
  intros Hf Hall. unfold _load_csv_to_db.
  rewrite (bind_ok _ _ w w df) by (unfold read_csv; by rewrite Hf).
  rewrite bind_run. unfold lift, _validate_columns. cbv zeta.
  destruct (decide (_ = ∅)) as [_|Hne].
  - unfold to_sql. eexists. split; [reflexivity|].
    destruct (connect_set_db con (<[table:=df]> (connect con w)) w _ eq_refl); done.
  - exfalso. apply Hne. apply set_eq. intros c. rewrite elem_of_difference, elem_of_list_to_set.
    split; [intros [? ?]; exfalso; auto|set_solver].
Qed.

End ingestion.

(** C7, as the code has it: when a CSV lacks a required column,
    [_load_csv_to_db] raises a [ValueError] that carries the missing
    column names, all of them and only them, in sorted order without
    repetition, and leaves the world as it found it: no table is created or
    overwritten by the load. Under [main] the same error comes out, no file
    changes and a target table that exists keeps its contents; a target
    table that did not exist has been created empty, from the fixed schema,
    by the [CREATE TABLE IF NOT EXISTS] statements that [main] runs before
    it reads any CSV. (For the candidates CSV: provided the training CSV
    was accepted.) *)
Theorem C7_missing_columns_rejected
    (csv_path : Path) (table : string) (con : Path) (df : DataFrame) (w : World) (c : string) :
  files w !! csv_path = Some (CsvFile df) →
  let required :=
    if decide (table = "locations_train")
    then create_db.REQUIRED_TRAIN else create_db.REQUIRED_CAND in
  c ∈ required → c ∉ columns df →
  ∃ missing,
    create_db._load_csv_to_db csv_path table con w
    = (Err (ValueError (MissingColumns table missing)), w)
    ∧ Sorted create_db.str_le missing ∧ NoDup missing
    ∧ (∀ c', c' ∈ missing ↔ c' ∈ required ∧ c' ∉ columns df)
    ∧ (∀ args, create_db.train args = csv_path → create_db.db args = con →
         table = "locations_train" →
         ∃ w', create_db.main args w = (Err (ValueError (MissingColumns table missing)), w')
           ∧ files w' = files w
           ∧ connect con w' !! table
             = Some (default (mkDataFrame create_db.SCHEMA_TRAIN.2 [])
                       (connect con w !! table)))
    ∧ (∀ args df_train, create_db.candidates args = csv_path → create_db.db args = con →
         table = "locations_candidates" →
         files w !! create_db.train args = Some (CsvFile df_train) →
         (∀ c', c' ∈ create_db.REQUIRED_TRAIN → c' ∈ columns df_train) →
         ∃ w', create_db.main args w = (Err (ValueError (MissingColumns table missing)), w')
           ∧ files w' = files w
           ∧ connect con w' !! table
             = Some (default (mkDataFrame create_db.SCHEMA_CAND.2 [])
                       (connect con w !! table))).
Proof.
  intros Hf required Hc Hn.
  exists (create_db.sorted (required ∖ list_to_set (columns df))).
  destruct (sorted_spec (required ∖ list_to_set (columns df))) as (Hs & Hd & Hm).
  split; [by apply (load_csv_missing csv_path table con df w c)|].
  split; [done|]. split; [done|].
  split; [intros c'; rewrite Hm, elem_of_difference, elem_of_list_to_set; done|].
  split.
  - intros args Ht Hdb ->. unfold create_db.main. cbv zeta. rewrite Hdb, Ht.
    destruct (execute_create_run create_db.SCHEMA_TRAIN con w) as (w1 & H1 & Hf1 & _).
    destruct (execute_create_run create_db.SCHEMA_CAND con w1) as (w2 & H2 & Hf2 & _).
    exists w2.
    rewrite (bind_ok _ _ _ _ _ H1), (bind_ok _ _ _ _ _ H2).
    assert (files w2 !! csv_path = Some (CsvFile df)) as Hf' by (by rewrite Hf2, Hf1).
    rewrite (bind_err _ _ w2 w2 _
               (load_csv_missing csv_path "locations_train" con df w2 c Hf' Hc Hn)).
    split; [done|]. split; [by rewrite Hf2, Hf1|].
    rewrite (execute_create_other _ _ _ _ "locations_train" H2) by done.
    apply (execute_create_lookup create_db.SCHEMA_TRAIN con w w1 H1).
  - intros args df_train Hcand Hdb -> Hft Hall. unfold create_db.main. cbv zeta.
    rewrite Hdb, Hcand.
    destruct (execute_create_run create_db.SCHEMA_TRAIN con w) as (w1 & H1 & Hf1 & _).
    destruct (execute_create_run create_db.SCHEMA_CAND con w1) as (w2 & H2 & Hf2 & _).
    assert (files w2 !! create_db.train args = Some (CsvFile df_train)) as Hft'
      by (by rewrite Hf2, Hf1).
    destruct (load_csv_ok _ "locations_train" con df_train w2 Hft' Hall)
      as (w3 & H3 & Hf3 & Hc3).
    exists w3.
    rewrite (bind_ok _ _ _ _ _ H1), (bind_ok _ _ _ _ _ H2), (bind_ok _ _ _ _ _ H3).
    assert (files w3 !! csv_path = Some (CsvFile df)) as Hf' by (by rewrite Hf3, Hf2, Hf1).
    rewrite (load_csv_missing csv_path "locations_candidates" con df w3 c Hf' Hc Hn).
    split; [done|]. split; [by rewrite Hf3, Hf2, Hf1|].
    rewrite Hc3, lookup_insert_ne by done.
    etrans; [apply (execute_create_lookup create_db.SCHEMA_CAND con w1 w2 H2)|].
    do 2 f_equal. by apply (execute_create_other _ _ _ _ "locations_candidates" H1).
Qed.

(** C7 at a training CSV without [rent_per_sqm] and a database with no table. *)
Lemma C7_witness :
  ∃ missing,
    create_db._load_csv_to_db Demo.train_csv "locations_train" Demo.db_path Demo.ingest_world
    = (Err (ValueError (MissingColumns "locations_train" missing)), Demo.ingest_world)
    ∧ Sorted create_db.str_le missing ∧ NoDup missing
    ∧ (∀ c', c' ∈ missing ↔
         c' ∈ create_db.REQUIRED_TRAIN ∧ c' ∉ columns Demo.csv_without_rent)
    ∧ (∀ args, create_db.train args = Demo.train_csv → create_db.db args = Demo.db_path →
         "locations_train" = "locations_train" →
         ∃ w', create_db.main args Demo.ingest_world
               = (Err (ValueError (MissingColumns "locations_train" missing)), w')
           ∧ files w' = files Demo.ingest_world
           ∧ connect Demo.db_path w' !! "locations_train"
             = Some (default (mkDataFrame create_db.SCHEMA_TRAIN.2 [])
                       (connect Demo.db_path Demo.ingest_world !! "locations_train")))
    ∧ (∀ args df_train, create_db.candidates args = Demo.train_csv →
         create_db.db args = Demo.db_path →
         "locations_train" = "locations_candidates" →
         files Demo.ingest_world !! create_db.train args = Some (CsvFile df_train) →
         (∀ c', c' ∈ create_db.REQUIRED_TRAIN → c' ∈ columns df_train) →
         ∃ w', create_db.main args Demo.ingest_world
               = (Err (ValueError (MissingColumns "locations_train" missing)), w')
           ∧ files w' = files Demo.ingest_world
           ∧ connect Demo.db_path w' !! "locations_train"
             = Some (default (mkDataFrame create_db.SCHEMA_CAND.2 [])
                       (connect Demo.db_path Demo.ingest_world !! "locations_train"))).
Proof.
  apply (C7_missing_columns_rejected Demo.train_csv "locations_train" Demo.db_path
           Demo.csv_without_rent Demo.ingest_world "rent_per_sqm").
  - vm_compute. reflexivity.
  - vm_compute. reflexivity.
  - apply (bool_decide_unpack _). vm_compute. exact I.
Defined.

(** C7 as stated fails under [main]: on a database that has no
    [locations_train] table, ingesting a training CSV without
    [rent_per_sqm] fails and reports exactly that column, yet the table has
    been created (empty). *)
Lemma C7_counterexample_table_created :
  let w := Demo.ingest_world in
  let r := create_db.main Demo.ingest_args w in
  r.1 = Err (ValueError (MissingColumns "locations_train" ["rent_per_sqm"]))
  ∧ connect Demo.db_path w !! "locations_train" = None
  ∧ connect Demo.db_path r.2 !! "locations_train"
    = Some (mkDataFrame
              ["lat"; "lon"; "foot_traffic"; "rent_per_sqm"; "competition";
               "median_income"; "office_density"; "weekend_activity";
               "events_per_month"; "coffee_price"; "promo_spend"; "profit"] []).
Proof. vm_compute. done. Qed.

(** ** The feature lists *)

(** C2: the two scripts declare the same feature list, the same 13
    distinct names in the same order, so that the columns a pipeline is
    fitted on by training are the columns scoring selects, in that
    order. *)
Theorem C2_feature_lists_identical :
  train_regression.FEATURES = score_new_sites.FEATURES
  ∧ length score_new_sites.FEATURES = 13
  ∧ NoDup score_new_sites.FEATURES
  ∧ ∀ lib alpha l1_ratio seed X y,
      match Pipeline_fit lib train_regression.FEATURES alpha l1_ratio seed X y with
      | Ok pipe => pre_columns pipe = score_new_sites.FEATURES
      | Err _ => True
      end.
Proof.
  split; [reflexivity|]. split; [reflexivity|].
  split; [apply (bool_decide_unpack _); vm_compute; exact I|].
  intros lib alpha l1_ratio seed X y. unfold Pipeline_fit.
  destruct (ColumnTransformer_select _ X); cbn [mbind result_bind]; [|done].
  destruct (check_finite _ _); cbn [mbind result_bind]; [|done].
  destruct (check_y y); cbn [mbind result_bind]; done.
Qed.

(** ** Scoring ([score_new_sites.py]) *)

Lemma run_scoring_run_load lib db_path sql_path model_path outdir w sql_text d X_cand :
  files w !! sql_path = Some (TextFile sql_text) →
  executescript lib sql_text (connect db_path w) = Ok d →
  d !! "features_candidates" = Some X_cand →
  let w2 := with_db (with_dir w outdir) db_path d in
  let out := (outdir / "scored_candidates.csv")%path in
  score_new_sites.run_scoring lib db_path sql_path model_path outdir w
  = match (joblib_load model_path w).1 with
    | Ok pipe =>
        match scored_table pipe X_cand with
        | Ok scored => (Ok (), with_file (with_dir w2 (parent out)) out (CsvFile scored))
        | Err e => (Err e, w2)
        end
    | Err e => (Err e, w2)
    end.
Proof.
  intros Hsql Hscript Hview w2 out. unfold score_new_sites.run_scoring.
  rewrite (bind_ok _ _ _ _ _ (ensure_outdir_run outdir w)).
  rewrite (read_view_run lib db_path sql_path "features_candidates" _ _ sql_text d X_cand)
    by done.
  fold w2. rewrite bind_run. unfold joblib_load at 1 2.
  change (files w2) with (files w).
  destruct (files w !! model_path) as [[| | | |pipe]|]; try reflexivity.
  cbn [fst]. unfold scored_table. rewrite bind_lift.
  destruct (getitem_list X_cand score_new_sites.FEATURES) as [X|];
    cbn [mbind result_bind]; [|done].
  rewrite bind_lift. destruct (Pipeline_predict pipe X) as [preds|];
    cbn [mbind result_bind]; [|done].
  rewrite bind_lift. destruct (getitem_list X_cand ["lat"; "lon"]) as [sc|];
    cbn [mbind result_bind]; [|done].
  rewrite bind_lift. destruct (setitem sc _ _) as [sc'|]; cbn [mbind result_bind]; [|done].
  reflexivity.
Qed.

Lemma run_scoring_run lib db_path sql_path model_path outdir w sql_text d X_cand pipe :
  files w !! sql_path = Some (TextFile sql_text) →
  executescript lib sql_text (connect db_path w) = Ok d →
  d !! "features_candidates" = Some X_cand →
  files w !! model_path = Some (JoblibFile pipe) →
  let w2 := with_db (with_dir w outdir) db_path d in
  let out := (outdir / "scored_candidates.csv")%path in
  score_new_sites.run_scoring lib db_path sql_path model_path outdir w
  = match scored_table pipe X_cand with
    | Ok scored => (Ok (), with_file (with_dir w2 (parent out)) out (CsvFile scored))
    | Err e => (Err e, w2)
    end.
Proof.
  intros Hsql Hscript Hview Hart w2 out.
  rewrite (run_scoring_run_load lib db_path sql_path model_path outdir w sql_text d X_cand)
    by done.
  by rewrite (joblib_load_run _ _ _ Hart).
Qed.


Lemma scored_table_inv pipe X_cand scored :
  scored_table pipe X_cand = Ok scored →
  (∀ c, c ∈ score_new_sites.FEATURES → c ∈ columns X_cand)
  ∧ (∀ c, c ∈ pre_columns pipe → c ∈ score_new_sites.FEATURES)
  ∧ (∀ c, c ∈ ["lat"; "lon"] → c ∈ columns X_cand)
  ∧ rows X_cand ≠ []
  ∧ scored = scored_frame pipe X_cand.
Proof.
  unfold scored_table.
  destruct (getitem_list X_cand score_new_sites.FEATURES) as [X|] eqn:EX; simpl; [|done].
  apply getitem_list_inv in EX as [HF ->].
  destruct (Pipeline_predict pipe _) as [preds|] eqn:EP; simpl; [|done].
  apply Pipeline_predict_inv in EP as (Hsub & -> & Hne). cbn [columns rows] in *.
  destruct (getitem_list X_cand ["lat"; "lon"]) as [sc|] eqn:ES; simpl; [|done].
  apply getitem_list_inv in ES as [HL ->].
  unfold setitem. cbn [columns rows]. destruct (decide _) as [_|]; [|done]. intros [= <-].
  split; [done|]. split; [done|]. split; [done|].
  split; [by destruct (rows X_cand)|].
  unfold scored_frame. f_equal.
  rewrite !map_map, zip_with_map_same. apply map_ext. intros r.
  rewrite <- (predict_record_projected pipe (columns X_cand) score_new_sites.FEATURES r Hsub).
  reflexivity.
Qed.


Lemma scored_table_no_key_error pipe X_cand :
  (∀ c, c ∈ score_new_sites.FEATURES ++ ["lat"; "lon"] → c ∈ columns X_cand) →
  no_key_error (scored_table pipe X_cand).
Proof.
  intros Hcols. unfold scored_table.
  rewrite (getitem_list_ok X_cand score_new_sites.FEATURES)
    by (intros c Hc; apply Hcols, elem_of_app; auto).
  cbn [mbind result_bind].
  pose proof (Pipeline_predict_no_key_error pipe
                (mkDataFrame score_new_sites.FEATURES
                   (map (λ r, map (row_get (columns X_cand) r) score_new_sites.FEATURES)
                      (rows X_cand)))) as H.
  destruct (Pipeline_predict pipe _) as [preds|]; cbn [mbind result_bind]; [|done].
  rewrite (getitem_list_ok X_cand ["lat"; "lon"])
    by (intros c Hc; apply Hcols, elem_of_app; auto).
  cbn [mbind result_bind]. unfold setitem. by destruct (decide _).
Qed.













(** ** Training ([train_regression.py]) *)

Lemma train_test_split_seeded lib X y num den seed w :
  train_test_split lib X y num den (Some seed) w = (shuffle_split lib X y num den seed, w).
Proof.
  unfold train_test_split, shuffle_split. cbv zeta.
  destruct (decide _); [reflexivity|].
  rewrite bind_run. unfold draw_permutation. unfold split_indices. reflexivity.
Qed.

Lemma n_test_of_quarter (n : nat) : n_test_of 25 100 n = (n + 3) `div` 4.
Proof.
  unfold n_test_of.
  assert (n * 25 + 100 - 1 = 25 * n + 99) as -> by lia.
  pose proof (Nat.div_mod_eq (25 * n + 99) 100).
  pose proof (Nat.mod_upper_bound (25 * n + 99) 100).
  pose proof (Nat.div_mod_eq (n + 3) 4).
  pose proof (Nat.mod_upper_bound (n + 3) 4).
  lia.
Qed.

Lemma shuffle_split_too_small lib X y :
  length (rows X) < 2 →
  shuffle_split lib X y 25 100 42 = Err (ValueError (EmptyTrainSet (length (rows X)))).
Proof.
  intros Hn. unfold shuffle_split. cbv zeta.
  destruct (decide _) as [|Hne]; [done|]. exfalso. apply Hne.
  destruct (rows X) as [|r0 [|r1 rs]]; [reflexivity|reflexivity|simpl in Hn; lia].
Qed.

Lemma shuffle_split_inv lib X y X_train X_test y_train y_test :
  shuffle_split lib X y 25 100 42 = Ok (X_train, X_test, y_train, y_test) →
  let n := length (rows X) in
  X_train = mkDataFrame (columns X) (take_rows [] (rows X) (train_indices lib n))
  ∧ X_test = mkDataFrame (columns X) (take_rows [] (rows X) (test_indices lib n))
  ∧ y_train = take_rows NA y (train_indices lib n)
  ∧ y_test = take_rows NA y (test_indices lib n).
Proof.
  unfold shuffle_split, train_indices, test_indices. cbv zeta.
  destruct (decide _); [done|]. unfold split_indices. by intros [= <- <- <- <-].
Qed.

Lemma run_training_run lib db_path sql_path outdir w sql_text d train_df :
  files w !! sql_path = Some (TextFile sql_text) →
  executescript lib sql_text (connect db_path w) = Ok d →
  d !! "features_train" = Some train_df →
  let charts := (outdir / "charts")%path in
  let w2 := with_db (with_dir (with_dir w outdir) charts) db_path d in
  train_regression.run_training lib db_path sql_path outdir w
  = match fit_and_evaluate lib train_df with
    | Err e => (Err e, w2)
    | Ok (X, y, pipe, metrics) =>
      let w3 := save w2 (outdir / "metrics.json") (JsonFile metrics) in
      match diagnostic_table pipe X y train_df with
      | Err e => (Err e, w3)
      | Ok (y_pred_all, preds) =>
        let w4 :=
          with_file
            (with_file (save w3 (outdir / "predictions_train.csv") (CsvFile preds))
               (charts / "actual_vs_predicted.png")
               (PngFile (Scatter (map cell_value y) y_pred_all "Actual vs Predicted Profit")))
            (charts / "residuals_hist.png")
            (PngFile (Hist (zip_with (λ a b, (cell_value a - b)%float) y y_pred_all)
                        "Residuals (Actual - Predicted)")) in
        match importance_table lib pipe with
        | Err e => (Err e, w4)
        | Ok importance =>
          let w5 := save w4 (outdir / "feature_importance.csv") (CsvFile importance) in
          match importance_series importance with
          | Err e => (Err e, w5)
          | Ok (names, values) =>
            (Ok (),
             with_file
               (with_file w5 (charts / "feature_importance.png")
                  (PngFile (Bar (take 15 names) (take 15 values)
                              "Feature Importance (Std. Coefficients)")))
               (outdir / "model.joblib") (JoblibFile pipe))
          end
        end
      end
    end.
Proof.
  intros Hsql Hscript Hview charts w2. unfold train_regression.run_training.
  rewrite (bind_ok _ _ _ _ _ (ensure_outdir_run outdir w)).
  rewrite (bind_ok _ _ _ _ _ (ensure_outdir_run (outdir / "charts") _)).
  rewrite (read_view_run lib db_path sql_path "features_train" _ _ sql_text d train_df)
    by done.
  fold charts. fold w2. unfold fit_and_evaluate.
  rewrite bind_lift.
  destruct (getitem_list train_df train_regression.FEATURES) as [X|];
    cbn [mbind result_bind]; [|done].
  rewrite bind_lift.
  destruct (getitem train_df train_regression.TARGET) as [y|];
    cbn [mbind result_bind]; [|done].
  rewrite bind_run, train_test_split_seeded.
  destruct (shuffle_split lib X y 25 100 42) as [[[[X_train X_test] y_train] y_test]|];
    cbn [mbind result_bind]; [|done].
  rewrite bind_lift.
  destruct (Pipeline_fit lib _ _ _ _ X_train y_train) as [pipe|];
    cbn [mbind result_bind]; [|done].
  rewrite bind_lift.
  destruct (Pipeline_predict pipe X_test) as [y_pred_test|]; cbn [mbind result_bind]; [|done].
  rewrite bind_lift.
  destruct (r2_score y_test y_pred_test) as [r2|]; cbn [mbind result_bind]; [|done].
  rewrite bind_lift.
  destruct (mean_absolute_error y_test y_pred_test) as [mae|];
    cbn [mbind result_bind]; [|done].
  cbv zeta. rewrite (bind_ok _ _ _ _ _ (save_json_run _ _ _)).
  fold (save w2 (outdir / "metrics.json") (JsonFile [("r2", r2); ("mae", mae)])).
  unfold diagnostic_table. rewrite bind_lift.
  destruct (Pipeline_predict pipe X) as [y_pred_all|]; cbn [mbind result_bind]; [|done].
  rewrite bind_lift.
  destruct (getitem_list train_df ["lat"; "lon"]) as [p0|]; cbn [mbind result_bind]; [|done].
  rewrite bind_lift.
  destruct (setitem p0 "actual_profit" y) as [p1|]; cbn [mbind result_bind]; [|done].
  rewrite bind_lift.
  destruct (setitem p1 "predicted_profit" _) as [preds|]; cbn [mbind result_bind]; [|done].
  rewrite (bind_ok _ _ _ _ _ (save_csv_run _ _ _)).
  rewrite (bind_ok _ _ _ _ _ (plot_scatter_run _ _ _ _ _)).
  rewrite (bind_ok _ _ _ _ _ (plot_hist_run _ _ _ _)).
  unfold importance_table. cbv zeta. rewrite bind_lift.
  destruct (DataFrame_of_dict _ _ _ _) as [imp|]; cbn [mbind result_bind]; [|done].
  rewrite (bind_ok _ _ _ _ _ (save_csv_run _ _ _)).
  unfold importance_series. rewrite bind_lift.
  destruct (getitem _ "feature") as [names|]; cbn [mbind result_bind]; [|done].
  rewrite bind_lift.
  destruct (getitem _ "importance") as [values|]; cbn [mbind result_bind]; [|done].
  rewrite (bind_ok _ _ _ _ _ (plot_bar_run _ _ _ _ _)).
  reflexivity.
Qed.

(** A successful run went through every stage, and its four data outputs
    hold what the stages computed. *)
Lemma run_training_ok_inv lib db_path sql_path outdir w sql_text d train_df :
  files w !! sql_path = Some (TextFile sql_text) →
  executescript lib sql_text (connect db_path w) = Ok d →
  d !! "features_train" = Some train_df →
  let r := train_regression.run_training lib db_path sql_path outdir w in
  r.1 = Ok () →
  ∃ X y pipe metrics y_pred_all preds importance,
    fit_and_evaluate lib train_df = Ok (X, y, pipe, metrics)
    ∧ diagnostic_table pipe X y train_df = Ok (y_pred_all, preds)
    ∧ importance_table lib pipe = Ok importance
    ∧ files r.2 !! (outdir / "metrics.json")%path = Some (JsonFile metrics)
    ∧ files r.2 !! (outdir / "predictions_train.csv")%path = Some (CsvFile preds)
    ∧ files r.2 !! (outdir / "feature_importance.csv")%path = Some (CsvFile importance)
    ∧ files r.2 !! (outdir / "model.joblib")%path = Some (JoblibFile pipe).
Proof.
  intros Hsql Hscript Hview r. unfold r.
  rewrite (run_training_run lib db_path sql_path outdir w sql_text d train_df) by done.
  cbv zeta.
  destruct (fit_and_evaluate lib train_df) as [[[[X y] pipe] metrics]|] eqn:HA; [|done].
  destruct (diagnostic_table pipe X y train_df) as [[y_pred_all preds]|] eqn:HB; [|done].
  destruct (importance_table lib pipe) as [importance|] eqn:HC; [|done].
  destruct (importance_series importance) as [[names values]|]; [|done].
  intros _. exists X, y, pipe, metrics, y_pred_all, preds, importance.
  do 3 (split; [done|]).
  cbn [snd files with_file save with_dir with_db].
  repeat split.
  - do 6 (rewrite lookup_insert_ne by (first [apply path_join_ne; discriminate | apply path_join2_ne
                                    | apply not_eq_sym, path_join2_ne])). by rewrite lookup_insert_eq.
  - do 5 (rewrite lookup_insert_ne by (first [apply path_join_ne; discriminate | apply path_join2_ne
                                    | apply not_eq_sym, path_join2_ne])). by rewrite lookup_insert_eq.
  - do 2 (rewrite lookup_insert_ne by (first [apply path_join_ne; discriminate | apply path_join2_ne
                                    | apply not_eq_sym, path_join2_ne])). by rewrite lookup_insert_eq.
  - by rewrite lookup_insert_eq.
Qed.

Lemma fit_and_evaluate_inv lib train_df X y pipe metrics :
  fit_and_evaluate lib train_df = Ok (X, y, pipe, metrics) →
  let n := length (rows train_df) in
  let X_train :=
    mkDataFrame train_regression.FEATURES (take_rows [] (rows X) (train_indices lib n)) in
  let X_test :=
    mkDataFrame train_regression.FEATURES (take_rows [] (rows X) (test_indices lib n)) in
  getitem_list train_df train_regression.FEATURES = Ok X
  ∧ getitem train_df train_regression.TARGET = Ok y
  ∧ Pipeline_fit lib train_regression.FEATURES 0.05 0.20 42 X_train
      (take_rows NA y (train_indices lib n)) = Ok pipe
  ∧ ∃ y_pred_test r2 mae,
      Pipeline_predict pipe X_test = Ok y_pred_test
      ∧ r2_score (take_rows NA y (test_indices lib n)) y_pred_test = Ok r2
      ∧ mean_absolute_error (take_rows NA y (test_indices lib n)) y_pred_test = Ok mae
      ∧ metrics = [("r2", r2); ("mae", mae)].
Proof.
  unfold fit_and_evaluate.
  destruct (getitem_list train_df train_regression.FEATURES) as [X0|] eqn:EX;
    cbn [mbind result_bind]; [|done].
  destruct (getitem train_df train_regression.TARGET) as [y0|] eqn:Ey;
    cbn [mbind result_bind]; [|done].
  destruct (shuffle_split lib X0 y0 25 100 42) as [[[[X_train X_test] y_train] y_test]|] eqn:Es;
    cbn [mbind result_bind]; [|done].
  apply shuffle_split_inv in Es as (-> & -> & -> & ->).
  pose proof EX as [_ HX]%getitem_list_inv.
  assert (length (rows X0) = length (rows train_df)) as Hn
    by (rewrite HX; cbn [rows]; by rewrite length_map).
  assert (columns X0 = train_regression.FEATURES) as Hc by (by rewrite HX).
  rewrite Hn, Hc.
  destruct (Pipeline_fit _ _ _ _ _ _ _) as [pipe0|] eqn:Ef; cbn [mbind result_bind]; [|done].
  destruct (Pipeline_predict pipe0 _) as [ypt|] eqn:Ep; cbn [mbind result_bind]; [|done].
  destruct (r2_score _ ypt) as [r2|] eqn:Er; cbn [mbind result_bind]; [|done].
  destruct (mean_absolute_error _ ypt) as [mae|] eqn:Em; cbn [mbind result_bind]; [|done].
  intros [= <- <- <- <-]. cbv zeta.
  split; [done|]. split; [done|]. split; [done|]. by exists ypt, r2, mae.
Qed.

(** C6: when the training view holds fewer than two records,
    [run_training] fails and no file has been written or changed when it
    does; with the feature and label columns in place the failure is the
    [ValueError] by which [train_test_split] refuses a split whose train
    set would be empty. *)
Theorem C6_too_few_records lib db_path sql_path outdir w sql_text d train_df :
  files w !! sql_path = Some (TextFile sql_text) →
  executescript lib sql_text (connect db_path w) = Ok d →
  d !! "features_train" = Some train_df →
  length (rows train_df) < 2 →
  let r := train_regression.run_training lib db_path sql_path outdir w in
  ∃ e, r.1 = Err e
    ∧ files r.2 = files w
    ∧ ((∀ c, c ∈ train_regression.TARGET :: train_regression.FEATURES → c ∈ columns train_df) →
       e = ValueError (EmptyTrainSet (length (rows train_df)))).
Proof.
  intros Hsql Hscript Hview Hn r. unfold r.
  rewrite (run_training_run lib db_path sql_path outdir w sql_text d train_df) by done.
  cbv zeta. unfold fit_and_evaluate.
  destruct (getitem_list train_df train_regression.FEATURES) as [X|eX] eqn:EX;
    cbn [mbind result_bind].
  - apply getitem_list_inv in EX as [HF ->].
    destruct (getitem train_df train_regression.TARGET) as [y|ey] eqn:Ey;
      cbn [mbind result_bind].
    + rewrite shuffle_split_too_small by (cbn [rows]; by rewrite length_map).
      cbn [mbind result_bind rows]. rewrite length_map.
      eexists. split; [reflexivity|]. split; [reflexivity|]. done.
    + eexists. split; [reflexivity|]. split; [reflexivity|].
      intros Hcols. rewrite getitem_ok in Ey by (apply Hcols; left). done.
  - eexists. split; [reflexivity|]. split; [reflexivity|].
    intros Hcols. rewrite getitem_list_ok in EX by (intros c Hc; apply Hcols; by right). done.
Qed.

(** C6 at a training view with a single record. *)
Lemma C6_witness :
  let r := train_regression.run_training Demo.lib Demo.db_path Demo.sql_path Demo.outdir
             Demo.world_single in
  ∃ e, r.1 = Err e
    ∧ files r.2 = files Demo.world_single
    ∧ ((∀ c, c ∈ train_regression.TARGET :: train_regression.FEATURES →
             c ∈ columns Demo.features_train_single) →
       e = ValueError (EmptyTrainSet (length (rows Demo.features_train_single)))).
Proof.
  apply (C6_too_few_records Demo.lib Demo.db_path Demo.sql_path Demo.outdir Demo.world_single
           "-- views" (Demo.database Demo.features_train_single Demo.features_candidates)
           Demo.features_train_single).
  - vm_compute. reflexivity.
  - vm_compute. reflexivity.
  - vm_compute. reflexivity.
  - vm_compute. lia.
Defined.



(** C5: after a successful [run_training], loading the artifact it wrote
    and applying it to the feature columns of the training view, the rows
    of the full-set diagnostic pass, gives exactly the values found in the
    [predicted_profit] column of [predictions_train.csv]. *)
Theorem C5_round_trip lib db_path sql_path outdir w sql_text d train_df :
  files w !! sql_path = Some (TextFile sql_text) →
  executescript lib sql_text (connect db_path w) = Ok d →
  d !! "features_train" = Some train_df →
  let r := train_regression.run_training lib db_path sql_path outdir w in
  r.1 = Ok () →
  ∃ pipe X preds y_pred,
    joblib_load (outdir / "model.joblib")%path r.2 = (Ok pipe, r.2)
    ∧ getitem_list train_df score_new_sites.FEATURES = Ok X
    ∧ Pipeline_predict pipe X = Ok y_pred
    ∧ length y_pred = length (rows train_df)
    ∧ files r.2 !! (outdir / "predictions_train.csv")%path = Some (CsvFile preds)
    ∧ getitem preds "predicted_profit" = Ok (map Num y_pred).
Proof.
  intros Hsql Hscript Hview r Hok.
  destruct (run_training_ok_inv lib db_path sql_path outdir w sql_text d train_df
              Hsql Hscript Hview Hok)
    as (X & y & pipe & metrics & y_pred_all & preds & imp & HA & HB & _ & _ & Hp & _ & Hm).
  exists pipe, X, preds, y_pred_all. fold r in Hp, Hm.
  split; [by apply joblib_load_run|].
  revert HA. unfold fit_and_evaluate.
  change score_new_sites.FEATURES with train_regression.FEATURES.
  destruct (getitem_list train_df train_regression.FEATURES) as [X0|] eqn:EX;
    cbn [mbind result_bind]; [|done].
  intros HA. assert (X0 = X) as ->.
  { revert HA. destruct (getitem _ _); cbn [mbind result_bind]; [|done].
    destruct (shuffle_split _ _ _ _ _ _) as [[[[? ?] ?] ?]|]; cbn [mbind result_bind]; [|done].
    destruct (Pipeline_fit _ _ _ _ _ _ _); cbn [mbind result_bind]; [|done].
    destruct (Pipeline_predict _ _); cbn [mbind result_bind]; [|done].
    destruct (r2_score _ _); cbn [mbind result_bind]; [|done].
    destruct (mean_absolute_error _ _); cbn [mbind result_bind]; [|done].
    by intros [= -> _ _ _]. }
  split; [done|]. clear HA.
  revert HB. unfold diagnostic_table.
  destruct (Pipeline_predict pipe X) as [ypa|] eqn:EP; cbn [mbind result_bind]; [|done].
  destruct (getitem_list train_df ["lat"; "lon"]) as [p0|] eqn:E0;
    cbn [mbind result_bind]; [|done].
  destruct (setitem p0 "actual_profit" y) as [p1|] eqn:E1; cbn [mbind result_bind]; [|done].
  destruct (setitem p1 "predicted_profit" (map Num ypa)) as [p2|] eqn:E2;
    cbn [mbind result_bind]; [|done].
  intros [= -> ->]. split; [done|].
  split.
  { apply Pipeline_predict_inv in EP as (_ & -> & _).
    apply getitem_list_inv in EX as [_ ->]. cbn [rows]. by rewrite !length_map. }
  split; [done|].
  apply (getitem_setitem p1 _ _ _ E2).
  - apply getitem_list_inv in E0 as [_ ->].
    revert E1. unfold setitem. destruct (decide _); [|done]. intros [= <-].
    cbn [columns]. apply (bool_decide_unpack _). vm_compute. exact I.
  - apply (setitem_rectangular _ _ _ _ E1). by apply (getitem_list_rectangular train_df _ _ E0).
Qed.

(** C5 at the demo world. *)
Lemma C5_witness :
  let r := train_regression.run_training Demo.lib Demo.db_path Demo.sql_path Demo.outdir
             Demo.world0 in
  ∃ pipe X preds y_pred,
    joblib_load (Demo.outdir / "model.joblib")%path r.2 = (Ok pipe, r.2)
    ∧ getitem_list Demo.features_train score_new_sites.FEATURES = Ok X
    ∧ Pipeline_predict pipe X = Ok y_pred
    ∧ length y_pred = length (rows Demo.features_train)
    ∧ files r.2 !! (Demo.outdir / "predictions_train.csv")%path = Some (CsvFile preds)
    ∧ getitem preds "predicted_profit" = Ok (map Num y_pred).
Proof.
  apply (C5_round_trip Demo.lib Demo.db_path Demo.sql_path Demo.outdir Demo.world0
           "-- views" (Demo.database Demo.features_train Demo.features_candidates)
           Demo.features_train).
  - vm_compute. reflexivity.
  - vm_compute. reflexivity.
  - vm_compute. reflexivity.
  - vm_compute. reflexivity.
Defined.

(** C9: in a successful run the persisted pipeline is the pipeline fitted
    on the training partition: its scaler comes from the feature values of
    the records at the training positions and from nothing else, the
    metrics are the scores of that pipeline on the records at the
    evaluation positions, and a second training view that differs from the
    first only in records outside the training partition yields the very
    same persisted pipeline. The full-set predictions are computed from
    the pipeline and leave it as it is. *)
Theorem C9_fit_on_training_partition_only
    lib db_path sql_path outdir w w' sql_text d d' train_df train_df' :
  files w !! sql_path = Some (TextFile sql_text) →
  executescript lib sql_text (connect db_path w) = Ok d →
  d !! "features_train" = Some train_df →
  files w' !! sql_path = Some (TextFile sql_text) →
  executescript lib sql_text (connect db_path w') = Ok d' →
  d' !! "features_train" = Some train_df' →
  columns train_df = columns train_df' →
  length (rows train_df) = length (rows train_df') →
  (∀ i, i ∈ train_indices lib (length (rows train_df)) →
        nth i (rows train_df) [] = nth i (rows train_df') []) →
  let r := train_regression.run_training lib db_path sql_path outdir w in
  let r' := train_regression.run_training lib db_path sql_path outdir w' in
  let n := length (rows train_df) in
  r.1 = Ok () → r'.1 = Ok () →
  ∃ pipe X y y_pred_test r2 mae,
    files r.2 !! (outdir / "model.joblib")%path = Some (JoblibFile pipe)
    ∧ files r'.2 !! (outdir / "model.joblib")%path = Some (JoblibFile pipe)
    ∧ getitem_list train_df train_regression.FEATURES = Ok X
    ∧ getitem train_df train_regression.TARGET = Ok y
    ∧ Pipeline_fit lib train_regression.FEATURES 0.05 0.20 42
        (mkDataFrame train_regression.FEATURES (take_rows [] (rows X) (train_indices lib n)))
        (take_rows NA y (train_indices lib n)) = Ok pipe
    ∧ pre_scaler pipe
      = scaler_fit lib
          (map (λ rec, map (λ c, cell_value (row_get train_regression.FEATURES rec c))
                         train_regression.FEATURES)
             (take_rows [] (rows X) (train_indices lib n)))
    ∧ Pipeline_predict pipe
        (mkDataFrame train_regression.FEATURES (take_rows [] (rows X) (test_indices lib n)))
      = Ok y_pred_test
    ∧ r2_score (take_rows NA y (test_indices lib n)) y_pred_test = Ok r2
    ∧ mean_absolute_error (take_rows NA y (test_indices lib n)) y_pred_test = Ok mae
    ∧ files r.2 !! (outdir / "metrics.json")%path = Some (JsonFile [("r2", r2); ("mae", mae)]).
Proof.
  intros Hsql Hscript Hview Hsql' Hscript' Hview' Hcols Hlen Hag r r' n Hok Hok'.
  destruct (run_training_ok_inv lib db_path sql_path outdir w sql_text d train_df
              Hsql Hscript Hview Hok)
    as (X & y & pipe & metrics & ? & ? & ? & HA & _ & _ & Hmet & _ & _ & Hm).
  destruct (run_training_ok_inv lib db_path sql_path outdir w' sql_text d' train_df'
              Hsql' Hscript' Hview' Hok')
    as (X' & y' & pipe' & metrics' & ? & ? & ? & HA' & _ & _ & _ & _ & _ & Hm').
  fold r in Hmet, Hm. fold r' in Hm'.
  apply fit_and_evaluate_inv in HA as (HX & Hy & Hfit & ypt & r2 & mae & Hp & Hr2 & Hmae & ->).
  apply fit_and_evaluate_inv in HA' as (HX' & Hy' & Hfit' & _).
  cbv zeta in *. fold n in Hfit, Hp, Hr2, Hmae. rewrite <- Hlen in Hfit'. fold n in Hfit', Hag.
  assert (pipe' = pipe) as ->.
  { assert (take_rows [] (rows X') (train_indices lib n)
            = take_rows [] (rows X) (train_indices lib n)) as HXt.
    { apply getitem_list_inv in HX as [_ ->]. apply getitem_list_inv in HX' as [_ ->].
      cbn [rows]. rewrite <- Hcols. symmetry.
      by apply (take_rows_map_agree _ _ _ _ _ []). }
    assert (take_rows NA y' (train_indices lib n) = take_rows NA y (train_indices lib n))
      as Hyt.
    { revert Hy Hy'. unfold getitem. rewrite <- Hcols.
      destruct (decide _); [|done]. intros [= <-] [= <-]. symmetry.
      by apply (take_rows_map_agree _ _ _ _ _ []). }
    rewrite HXt, Hyt, Hfit in Hfit'. by injection Hfit' as <-. }
  exists pipe, X, y, ypt, r2, mae.
  do 5 (split; [done|]). split; [|done].
  revert Hfit. unfold Pipeline_fit.
  destruct (ColumnTransformer_select _ _) as [Xs|] eqn:Es; cbn [mbind result_bind]; [|done].
  apply ColumnTransformer_select_inv in Es as (_ & -> & _). cbn [columns rows].
  destruct (check_finite _ _); cbn [mbind result_bind]; [|done].
  destruct (check_y _); cbn [mbind result_bind]; [|done].
  by intros [= <-].
Qed.

(** C9 at the demo training view and at the same view with other labels on its
    two evaluation records. *)
Lemma C9_witness :
  let r := train_regression.run_training Demo.lib Demo.db_path Demo.sql_path Demo.outdir
             Demo.world0 in
  let r' := train_regression.run_training Demo.lib Demo.db_path Demo.sql_path Demo.outdir
              Demo.world0_relabelled in
  let n := length (rows Demo.features_train) in
  ∃ pipe X y y_pred_test r2 mae,
    files r.2 !! (Demo.outdir / "model.joblib")%path = Some (JoblibFile pipe)
    ∧ files r'.2 !! (Demo.outdir / "model.joblib")%path = Some (JoblibFile pipe)
    ∧ getitem_list Demo.features_train train_regression.FEATURES = Ok X
    ∧ getitem Demo.features_train train_regression.TARGET = Ok y
    ∧ Pipeline_fit Demo.lib train_regression.FEATURES 0.05 0.20 42
        (mkDataFrame train_regression.FEATURES
           (take_rows [] (rows X) (train_indices Demo.lib n)))
        (take_rows NA y (train_indices Demo.lib n)) = Ok pipe
    ∧ pre_scaler pipe
      = scaler_fit Demo.lib
          (map (λ rec, map (λ c, cell_value (row_get train_regression.FEATURES rec c))
                         train_regression.FEATURES)
             (take_rows [] (rows X) (train_indices Demo.lib n)))
    ∧ Pipeline_predict pipe
        (mkDataFrame train_regression.FEATURES
           (take_rows [] (rows X) (test_indices Demo.lib n)))
      = Ok y_pred_test
    ∧ r2_score (take_rows NA y (test_indices Demo.lib n)) y_pred_test = Ok r2
    ∧ mean_absolute_error (take_rows NA y (test_indices Demo.lib n)) y_pred_test = Ok mae
    ∧ files r.2 !! (Demo.outdir / "metrics.json")%path
      = Some (JsonFile [("r2", r2); ("mae", mae)]).
Proof.
  apply (C9_fit_on_training_partition_only Demo.lib Demo.db_path Demo.sql_path Demo.outdir
           Demo.world0 Demo.world0_relabelled "-- views"
           (Demo.database Demo.features_train Demo.features_candidates)
           (Demo.database Demo.features_train_relabelled Demo.features_candidates)
           Demo.features_train Demo.features_train_relabelled).
  - vm_compute. reflexivity.
  - vm_compute. reflexivity.
  - vm_compute. reflexivity.
  - vm_compute. reflexivity.
  - vm_compute. reflexivity.
  - vm_compute. reflexivity.
  - reflexivity.
  - vm_compute. reflexivity.
  - for_each_member ltac:(vm_compute; reflexivity).
  - vm_compute. reflexivity.
  - vm_compute. reflexivity.
Defined.

(** ** The feature ranking *)

Lemma nargsort_descending_spec (lib : Lib) (items : list float) :
  argsort_contract (argsort_input items) (argsort lib (argsort_input items)) →
  nargsort_descending lib items ≡ₚ seq 0 (length items)
  ∧ StronglySorted (λ i j, key_desc (nth i items nan) (nth j items nan))
      (nargsort_descending lib items).
Proof.
  unfold argsort_contract, nargsort_descending, argsort_input. cbv zeta.
  set (idx := seq 0 (length items)).
  set (P := λ i : nat, is_nan (nth i items nan) = false).
  set (Q := λ i : nat, is_nan (nth i items nan) = true).
  set (nn := filter P idx).
  set (keys := rev (map (λ i, nth i items nan) nn)).
  set (a := argsort lib keys).
  intros [Hperm Hsorted].
  assert (length keys = length (rev nn)) as Hlen
    by (unfold keys; by rewrite !length_rev, length_map).
  assert (keys = map (λ i, nth i items nan) (rev nn)) as Hkeys
    by (unfold keys; by rewrite map_rev).
  assert (∀ k, k ∈ a → k < length (rev nn)) as Hrange.
  { intros k Hk. rewrite Hperm in Hk. apply list_elem_of_In, in_seq in Hk. lia. }
  assert (∀ k, k ∈ a → nth (nth k (rev nn) 0) items nan = nth k keys nan) as Hkey.
  { intros k Hk. rewrite Hkeys.
    by rewrite (nth_map_lt _ (rev nn) k nan 0 (Hrange k Hk)). }
  split.
  - etrans; [|apply (filter_app_complement P idx)].
    apply Permutation_app.
    + rewrite <- Permutation_rev. fold a. rewrite Hperm, Hlen, map_nth_seq.
      symmetry. apply Permutation_rev.
    + rewrite (list_filter_iff (λ i, ¬ P i) Q idx); [done|].
      intros i. unfold P, Q. by destruct (is_nan (nth i items nan)).
  - apply StronglySorted_app_2.
    + intros i j _ [Hj _]%list_elem_of_filter. by left.
    + apply (StronglySorted_weaken
               (flip (λ i j, (nth i items nan <=? nth j items nan)%float = true)));
        [intros i j Hij; by right|].
      apply StronglySorted_rev.
      apply (StronglySorted_map_in _ _ _ _ Hsorted).
      intros k1 k2 Hk1 Hk2 Hle. by rewrite (Hkey k1 Hk1), (Hkey k2 Hk2).
    + apply StronglySorted_all. intros i j _ [Hj _]%list_elem_of_filter. by left.
Qed.

Lemma importance_table_inv lib pipe imp :
  importance_table lib pipe = Ok imp →
  let coefs := coef_ (model pipe) in
  let table := zip_with (λ f c, [Str f; Num c]) train_regression.FEATURES coefs in
  length coefs = 13
  ∧ length table = 13
  ∧ imp = mkDataFrame ["feature"; "importance"]
            (map (λ i, nth i table [NA; NA]) (nargsort_descending lib (map abs coefs))).
Proof.
  assert (zip_with (λ a b, [a; b]) (map Str train_regression.FEATURES)
            (map Num (coef_ (model pipe)))
          = zip_with (λ f c, [Str f; Num c]) train_regression.FEATURES (coef_ (model pipe)))
    as Hz by (by rewrite zip_with_fmap_l, zip_with_fmap_r).
  unfold importance_table, DataFrame_of_dict. cbv zeta. rewrite Hz.
  destruct (decide _) as [Hlen|]; cbn [mbind result_bind]; [|done].
  rewrite !length_map in Hlen.
  assert (length (coef_ (model pipe)) = 13) as H13 by (rewrite <- Hlen; reflexivity).
  intros Himp. split; [done|]. split; [rewrite length_zip_with; rewrite H13; reflexivity|].
  by injection Himp as <-.
Qed.

(** C8, as the code has it: the ranking written by a successful
    [run_training] has the columns [feature] and [importance]; provided
    the library's argsort returns, on the magnitudes it is given, their
    positions in ascending order, the ranking lists each of the 13 features
    exactly once, each with its signed coefficient, and in descending order
    of the absolute value of the coefficient. The order among features
    whose coefficients have the same absolute value is whatever that
    argsort makes of equal keys. *)
Theorem C8_feature_ranking lib db_path sql_path outdir w sql_text d train_df pipe :
  files w !! sql_path = Some (TextFile sql_text) →
  executescript lib sql_text (connect db_path w) = Ok d →
  d !! "features_train" = Some train_df →
  let r := train_regression.run_training lib db_path sql_path outdir w in
  let coefs := coef_ (model pipe) in
  let keys := argsort_input (map abs coefs) in
  r.1 = Ok () →
  files r.2 !! (outdir / "model.joblib")%path = Some (JoblibFile pipe) →
  argsort_contract keys (argsort lib keys) →
  ∃ imp,
    files r.2 !! (outdir / "feature_importance.csv")%path = Some (CsvFile imp)
    ∧ columns imp = ["feature"; "importance"]
    ∧ rows imp ≡ₚ zip_with (λ f c, [Str f; Num c]) train_regression.FEATURES coefs
    ∧ length (rows imp) = 13
    ∧ StronglySorted ranked_before (rows imp).
Proof.
  intros Hsql Hscript Hview r coefs keys Hok Hpipe Hcontract.
  destruct (run_training_ok_inv lib db_path sql_path outdir w sql_text d train_df
              Hsql Hscript Hview Hok)
    as (X & y & pipe' & metrics & ? & ? & imp & _ & _ & HC & _ & _ & Hfi & Hm).
  fold r in Hfi, Hm. rewrite Hpipe in Hm. injection Hm as <-. exists imp.
  apply importance_table_inv in HC as (H13 & Ht & ->). cbv zeta in *. fold coefs in H13, Ht.
  set (table := zip_with (λ f c, [Str f; Num c]) train_regression.FEATURES coefs) in *.
  do 2 (split; [done|]). cbn [rows].
  destruct (nargsort_descending_spec lib (map abs coefs) Hcontract) as [Hperm Hsorted].
  rewrite length_map, H13 in Hperm.
  assert (map (λ i, nth i table [NA; NA]) (nargsort_descending lib (map abs coefs)) ≡ₚ table)
    as Hrows.
  { etrans; [apply Permutation_map, Hperm|]. rewrite <- Ht. by rewrite map_nth_seq. }
  split; [exact Hrows|]. split; [exact (eq_trans (Permutation_length Hrows) Ht)|].
  apply (StronglySorted_map_in _ _ _ _ Hsorted).
  intros i j Hi Hj. unfold ranked_before, importance_of.
  assert (∀ k, k ∈ nargsort_descending lib (map abs coefs) →
            abs (cell_value (nth 1 (nth k table [NA; NA]) NA)) = nth k (map abs coefs) nan)
    as Hk.
  { intros k Hin. rewrite Hperm in Hin. apply list_elem_of_In, in_seq in Hin.
    unfold table. rewrite (nth_zip_with_lt _ _ _ k _ "" nan) by (rewrite ?H13; simpl; lia).
    cbn [nth cell_value]. by rewrite (nth_map_lt abs coefs k nan nan) by lia. }
  change (key_desc (nth i (map abs coefs) nan) (nth j (map abs coefs) nan) →
          key_desc (abs (cell_value (nth 1 (nth i table [NA; NA]) NA)))
                   (abs (cell_value (nth 1 (nth j table [NA; NA]) NA)))).
  by rewrite (Hk i Hi), (Hk j Hj).
Qed.

(** C8 at the demo world, with the insertion argsort that keeps equal keys in
    order. *)
Lemma C8_witness :
  let r := train_regression.run_training Demo.lib Demo.db_path Demo.sql_path Demo.outdir
             Demo.world0 in
  ∃ imp,
    files r.2 !! (Demo.outdir / "feature_importance.csv")%path = Some (CsvFile imp)
    ∧ columns imp = ["feature"; "importance"]
    ∧ rows imp ≡ₚ zip_with (λ f c, [Str f; Num c]) train_regression.FEATURES
                     (coef_ (model Demo.pipe1))
    ∧ length (rows imp) = 13
    ∧ StronglySorted ranked_before (rows imp).
Proof.
  apply (C8_feature_ranking Demo.lib Demo.db_path Demo.sql_path Demo.outdir Demo.world0
           "-- views" (Demo.database Demo.features_train Demo.features_candidates)
           Demo.features_train Demo.pipe1).
  - vm_compute. reflexivity.
  - vm_compute. reflexivity.
  - vm_compute. reflexivity.
  - vm_compute. reflexivity.
  - vm_compute. reflexivity.
  - split; decide_by_computation.
Defined.

(** C8 as stated fails on ties: in the demo training view two features
    are constant, [events_per_month] (declared seventh) and [coffee_price]
    (declared eighth), and both get the coefficient 0. With an argsort
    that returns the positions in ascending order of the keys, as asked,
    but does not keep equal keys in their order, the ranking puts
    [coffee_price] before [events_per_month]. *)
Lemma C8_counterexample_ties :
  let r := train_regression.run_training Demo.lib_unstable Demo.db_path Demo.sql_path
             Demo.outdir Demo.world0 in
  let keys := argsort_input (map abs (coef_ (model Demo.pipe1))) in
  r.1 = Ok ()
  ∧ files r.2 !! (Demo.outdir / "model.joblib")%path = Some (JoblibFile Demo.pipe1)
  ∧ argsort_contract keys (argsort Demo.lib_unstable keys)
  ∧ index_of "events_per_month" train_regression.FEATURES = Some 6
  ∧ index_of "coffee_price" train_regression.FEATURES = Some 7
  ∧ ∃ imp,
      files r.2 !! (Demo.outdir / "feature_importance.csv")%path = Some (CsvFile imp)
      ∧ rows imp !! 11 = Some [Str "coffee_price"; Num 0%float]
      ∧ rows imp !! 12 = Some [Str "events_per_month"; Num 0%float].
Proof.
  cbv zeta. split; [vm_compute; reflexivity|]. split; [vm_compute; reflexivity|].
  split; [split; decide_by_computation|].
  split; [reflexivity|]. split; [reflexivity|].
  eexists. split; [vm_compute; reflexivity|]. split; vm_compute; reflexivity.
Qed.

(** With the argsort of [Demo.lib], which keeps equal keys in their order, the
    same two features come out in the order of their declaration: the order
    of ties follows the sort, not the script. *)
Example ranking_ties_with_a_stable_argsort :
  let r := train_regression.run_training Demo.lib Demo.db_path Demo.sql_path
             Demo.outdir Demo.world0 in
  ∃ imp,
    files r.2 !! (Demo.outdir / "feature_importance.csv")%path = Some (CsvFile imp)
    ∧ rows imp !! 11 = Some [Str "events_per_month"; Num 0%float]
    ∧ rows imp !! 12 = Some [Str "coffee_price"; Num 0%float].
Proof.
  cbv zeta. eexists. split; [vm_compute; reflexivity|]. split; vm_compute; reflexivity.
Qed.

(** * Further properties *)

(** ** What the scripts leave alone *)

Lemma frame_refl (P : list Path) (db_path : Path) (w : World) : frame P db_path w w.
Proof. repeat split; done. Qed.

Lemma frame_trans (P : list Path) (db_path : Path) (w1 w2 w3 : World) :
  frame P db_path w1 w2 → frame P db_path w2 w3 → frame P db_path w1 w3.
Proof.
  intros (Hf1 & Hd1 & Hr1 & Hs1) (Hf2 & Hd2 & Hr2 & Hs2). repeat split.
  - intros p Hp. by rewrite Hf2, Hf1.
  - intros q Hq. by rewrite Hd2, Hd1.
  - by rewrite Hr2.
  - by etrans.
Qed.

Lemma keeps_bind {A B} (P : list Path) (db_path : Path) (m : M A) (f : A → M B) :
  keeps P db_path m → (∀ a, keeps P db_path (f a)) → keeps P db_path (m ≫= f).
Proof.
  intros Hm Hf w. rewrite bind_run. specialize (Hm w).
  destruct (m w) as [[a|e] w1]; [|exact Hm].
  exact (frame_trans _ _ _ _ _ Hm (Hf a w1)).
Qed.

Lemma keeps_lift {A} (P : list Path) (db_path : Path) (r : result A) :
  keeps P db_path (lift r).
Proof. intros w. apply frame_refl. Qed.

Lemma keeps_mret {A} (P : list Path) (db_path : Path) (a : A) :
  keeps P db_path (mret a).
Proof. intros w. apply frame_refl. Qed.

Lemma keeps_mkdir (P : list Path) (db_path p : Path) : keeps P db_path (mkdir p).
Proof. intros w. repeat split; try done. simpl. apply union_subseteq_r. Qed.

Lemma keeps_write_file (P : list Path) (db_path p : Path) (f : File) :
  p ∈ P → keeps P db_path (write_file p f).
Proof.
  intros Hp w. repeat split; try done.
  intros p' Hp'. simpl. apply lookup_insert_ne. by intros ->.
Qed.

Lemma keeps_bind_ensure_outdir {B} (P : list Path) (db_path p : Path) (f : Path → M B) :
  keeps P db_path (f p) → keeps P db_path (ensure_outdir p ≫= f).
Proof.
  intros Hf w. rewrite (bind_ok _ _ _ _ _ (ensure_outdir_run p w)).
  apply (frame_trans _ _ _ (with_dir w p)); [|apply Hf].
  apply (keeps_mkdir P db_path p w).
Qed.

Lemma keeps_save_csv (P : list Path) (db_path p : Path) (df : DataFrame) :
  p ∈ P → keeps P db_path (save_csv df p).
Proof.
  intros Hp. apply keeps_bind; [apply keeps_mkdir|intros].
  apply keeps_bind; [by apply keeps_write_file|intros; apply keeps_mret].
Qed.

Lemma keeps_save_json (P : list Path) (db_path p : Path) obj :
  p ∈ P → keeps P db_path (save_json obj p).
Proof.
  intros Hp. apply keeps_bind; [apply keeps_mkdir|intros].
  apply keeps_bind; [by apply keeps_write_file|intros; apply keeps_mret].
Qed.

Lemma keeps_plot_scatter (P : list Path) (db_path p : Path) y_true y_pred title :
  p ∈ P → keeps P db_path (plot_scatter_actual_vs_pred y_true y_pred p title).
Proof.
  intros Hp. apply keeps_bind; [by apply keeps_write_file|intros; apply keeps_mret].
Qed.

Lemma keeps_plot_hist (P : list Path) (db_path p : Path) series title :
  p ∈ P → keeps P db_path (plot_hist series p title).
Proof.
  intros Hp. apply keeps_bind; [by apply keeps_write_file|intros; apply keeps_mret].
Qed.

Lemma keeps_plot_bar (P : list Path) (db_path p : Path) names values title :
  p ∈ P → keeps P db_path (plot_bar names values p title).
Proof.
  intros Hp. apply keeps_bind; [by apply keeps_write_file|intros; apply keeps_mret].
Qed.

Lemma keeps_read_text (P : list Path) (db_path p : Path) : keeps P db_path (read_text p).
Proof.
  intros w. unfold read_text. destruct (files w !! p) as [[]|]; apply frame_refl.
Qed.

Lemma keeps_joblib_load (P : list Path) (db_path p : Path) : keeps P db_path (joblib_load p).
Proof.
  intros w. unfold joblib_load. destruct (files w !! p) as [[]|]; apply frame_refl.
Qed.

Lemma keeps_con_executescript (P : list Path) (lib : Lib) (db_path : Path) sql_text :
  keeps P db_path (con_executescript lib db_path sql_text).
Proof.
  intros w. unfold con_executescript.
  destruct (executescript lib sql_text (connect db_path w)); [|apply frame_refl].
  repeat split; try done. intros q Hq. simpl. by apply lookup_insert_ne.
Qed.

Lemma keeps_read_sql_query (P : list Path) (db_path : Path) relation :
  keeps P db_path (read_sql_query relation db_path).
Proof.
  intros w. unfold read_sql_query.
  destruct (connect db_path w !! relation); apply frame_refl.
Qed.

Lemma keeps_train_test_split (P : list Path) (db_path : Path) lib X y num den seed :
  keeps P db_path (train_test_split lib X y num den (Some seed)).
Proof. intros w. rewrite train_test_split_seeded. apply frame_refl. Qed.

(** [run_training] after its two [ensure_outdir]. *)
Lemma run_training_frame (lib : Lib) (db_path sql_path outdir : Path) (w : World) :
  frame (training_outputs outdir) db_path
    (with_dir (with_dir w outdir) (outdir / "charts"))
    (train_regression.run_training lib db_path sql_path outdir w).2.
Proof.
  unfold train_regression.run_training.
  rewrite (bind_ok _ _ _ _ _ (ensure_outdir_run outdir w)).
  rewrite (bind_ok _ _ _ _ _ (ensure_outdir_run (outdir / "charts") _)).
  match goal with
  | |- frame ?P _ _ (?m _).2 => enough (keeps P db_path m) as Hk by apply Hk
  end.
  unfold training_outputs, joblib_dump.
  repeat first
    [ apply keeps_lift | apply keeps_mret
    | apply keeps_read_text | apply keeps_con_executescript | apply keeps_read_sql_query
    | apply keeps_train_test_split
    | apply keeps_save_json; in_list
    | apply keeps_save_csv; in_list
    | apply keeps_plot_scatter; in_list
    | apply keeps_plot_hist; in_list
    | apply keeps_plot_bar; in_list
    | apply keeps_write_file; in_list
    | apply keeps_bind
    | intros [[[? ?] ?] ?]
    | intros ? ].
Qed.

(** [run_scoring] after its [ensure_outdir]. *)
Lemma run_scoring_frame (lib : Lib) (db_path sql_path model_path outdir : Path) (w : World) :
  frame [(outdir / "scored_candidates.csv")%path] db_path
    (with_dir w outdir)
    (score_new_sites.run_scoring lib db_path sql_path model_path outdir w).2.
Proof.
  unfold score_new_sites.run_scoring.
  rewrite (bind_ok _ _ _ _ _ (ensure_outdir_run outdir w)).
  match goal with
  | |- frame ?P _ _ (?m _).2 => enough (keeps P db_path m) as Hk by apply Hk
  end.
  repeat first
    [ apply keeps_lift | apply keeps_mret
    | apply keeps_read_text | apply keeps_con_executescript | apply keeps_read_sql_query
    | apply keeps_joblib_load
    | apply keeps_save_csv; in_list
    | apply keeps_bind
    | intros ? ].
Qed.



Lemma with_dir_subseteq (w : World) (p : Path) : dirs w ⊆ dirs (with_dir w p).
Proof. unfold with_dir. cbn [dirs]. apply union_subseteq_r. Qed.

(** X1. Whatever the inputs and whether it succeeds or fails, [run_training]
    changes no file other than its seven outputs under [outdir], and it
    removes no directory. *)
Theorem run_training_touches_only_its_outputs (lib : Lib) (db_path sql_path outdir : Path)
    (w : World) :
  let w' := (train_regression.run_training lib db_path sql_path outdir w).2 in
  (∀ p, p ∉ training_outputs outdir → files w' !! p = files w !! p)
  ∧ dirs w ⊆ dirs w'.
Proof.
  intros w'.
  destruct (run_training_frame lib db_path sql_path outdir w) as (Hf & _ & _ & Hs).
  fold w' in Hf, Hs. split; [exact Hf|].
  etrans; [|exact Hs]. etrans; [|apply with_dir_subseteq]. apply with_dir_subseteq.
Qed.

(** X2. Whatever the inputs and whether it succeeds or fails, [run_scoring]
    changes no file other than [outdir / "scored_candidates.csv"] (so the
    artifact, the script and the outputs of training, which are at other
    paths, stay as they are), and it removes no directory. *)
Theorem run_scoring_touches_only_its_output (lib : Lib)
    (db_path sql_path model_path outdir : Path) (w : World) :
  let w' := (score_new_sites.run_scoring lib db_path sql_path model_path outdir w).2 in
  (∀ p, p ≠ (outdir / "scored_candidates.csv")%path → files w' !! p = files w !! p)
  ∧ dirs w ⊆ dirs w'.
Proof.
  intros w'.
  destruct (run_scoring_frame lib db_path sql_path model_path outdir w) as (Hf & _ & _ & Hs).
  fold w' in Hf, Hs.
  split; [intros p Hp; apply Hf; by intros ->%list_elem_of_singleton|].
  etrans; [|exact Hs]. apply with_dir_subseteq.
Qed.

(** ** Ingestion, run to the end *)

Section ingestion_runs.
Import create_db.

Lemma with_db_with_db (w : World) (con : Path) (d d' : DB) :
  with_db (with_db w con d) con d' = with_db w con d'.
Proof. unfold with_db. simpl. by rewrite insert_insert_eq. Qed.

Lemma execute_create_total schema con w :
  execute_create schema con w
  = (Ok (), with_db w con (create_table_if_not_exists schema (connect con w))).
Proof.
  unfold execute_create, create_table_if_not_exists. cbv zeta.
  by destruct (connect con w !! schema.1).
Qed.

Lemma validate_columns_inv df required table :
  _validate_columns df required table = Ok () → ∀ c, c ∈ required → c ∈ columns df.
Proof.
  unfold _validate_columns. cbv zeta. destruct (decide (_ = ∅)) as [He|]; [|done].
  intros _ c Hc. destruct (decide (c ∈ columns df)) as [|Hn]; [done|].
  exfalso. apply (not_elem_of_empty (C := gset string) c). rewrite <- He.
  apply elem_of_difference. split; [done|]. by rewrite elem_of_list_to_set.
Qed.

Lemma validate_columns_ok df required table :
  (∀ c, c ∈ required → c ∈ columns df) → _validate_columns df required table = Ok ().
Proof.
  intros Hall. unfold _validate_columns. cbv zeta.
  destruct (decide (_ = ∅)) as [|Hne]; [done|]. exfalso. apply Hne.
  apply elem_of_equiv_empty_L. intros c [Hc Hn]%elem_of_difference.
  apply Hn. rewrite elem_of_list_to_set. by apply Hall.
Qed.

Lemma load_csv_run csv_path table con w :
  _load_csv_to_db csv_path table con w
  = match files w !! csv_path with
    | Some (CsvFile df) =>
        match _validate_columns df
                (if decide (table = "locations_train") then REQUIRED_TRAIN else REQUIRED_CAND)
                table with
        | Ok _ => (Ok (), with_db w con (<[table := df]> (connect con w)))
        | Err e => (Err e, w)
        end
    | Some _ => (Err (ParserError csv_path), w)
    | None => (Err (FileNotFoundError csv_path), w)
    end.
Proof.
  unfold _load_csv_to_db. rewrite bind_run. unfold read_csv.
  destruct (files w !! csv_path) as [[]|]; reflexivity.
Qed.

(** [main], stage by stage. *)
Lemma main_run args w :
  let con := db args in
  let d2 := create_table_if_not_exists SCHEMA_CAND
              (create_table_if_not_exists SCHEMA_TRAIN (connect con w)) in
  main args w
  = match files w !! train args with
    | Some (CsvFile df_train) =>
        match _validate_columns df_train REQUIRED_TRAIN "locations_train" with
        | Ok _ =>
            let d3 := <["locations_train" := df_train]> d2 in
            match files w !! candidates args with
            | Some (CsvFile df_cand) =>
                match _validate_columns df_cand REQUIRED_CAND "locations_candidates" with
                | Ok _ => (Ok (), with_db w con (<["locations_candidates" := df_cand]> d3))
                | Err e => (Err e, with_db w con d3)
                end
            | Some _ => (Err (ParserError (candidates args)), with_db w con d3)
            | None => (Err (FileNotFoundError (candidates args)), with_db w con d3)
            end
        | Err e => (Err e, with_db w con d2)
        end
    | Some _ => (Err (ParserError (train args)), with_db w con d2)
    | None => (Err (FileNotFoundError (train args)), with_db w con d2)
    end.
Proof.
  intros con d2. unfold main. cbv zeta. fold con.
  rewrite (bind_ok _ _ _ _ _ (execute_create_total SCHEMA_TRAIN con w)).
  rewrite (bind_ok _ _ _ _ _ (execute_create_total SCHEMA_CAND con _)).
  rewrite connect_with_db, with_db_with_db. fold d2.
  rewrite bind_run, load_csv_run. cbn [files with_db].
  destruct (files w !! train args) as [[| df_train | | |]|]; try reflexivity.
  rewrite decide_True by reflexivity.
  destruct (_validate_columns df_train REQUIRED_TRAIN "locations_train"); [|reflexivity].
  rewrite connect_with_db, with_db_with_db, load_csv_run. cbn [files with_db].
  destruct (files w !! candidates args) as [[| df_cand | | |]|]; try reflexivity.
  rewrite decide_False by discriminate.
  destruct (_validate_columns df_cand REQUIRED_CAND "locations_candidates"); [|reflexivity].
  by rewrite connect_with_db, with_db_with_db.
Qed.

Lemma create_table_lookup_other schema (d : DB) (t : string) :
  t ≠ schema.1 → create_table_if_not_exists schema d !! t = d !! t.
Proof.
  intros Hne. unfold create_table_if_not_exists.
  destruct (d !! schema.1); [done|]. by rewrite lookup_insert_ne.
Qed.

Lemma create_table_present schema (d : DB) df :
  d !! schema.1 = Some df → create_table_if_not_exists schema d = d.
Proof. intros H. unfold create_table_if_not_exists. by rewrite H. Qed.

End ingestion_runs.

(** X3. Whenever [create_db.main] succeeds, the two CSV files were there
    with their required columns, and the two tables hold them as they were
    read, with any further column they have (the table created from the
    fixed schema is replaced); every other table of the database, every
    other database and every file are as they were. *)
Theorem create_db_main_loads_both_tables (args : create_db.Namespace) (w w' : World) :
  create_db.main args w = (Ok (), w') →
  ∃ df_train df_cand,
    files w !! create_db.train args = Some (CsvFile df_train)
    ∧ files w !! create_db.candidates args = Some (CsvFile df_cand)
    ∧ (∀ c, c ∈ create_db.REQUIRED_TRAIN → c ∈ columns df_train)
    ∧ (∀ c, c ∈ create_db.REQUIRED_CAND → c ∈ columns df_cand)
    ∧ connect (create_db.db args) w' !! "locations_train" = Some df_train
    ∧ connect (create_db.db args) w' !! "locations_candidates" = Some df_cand
    ∧ (∀ t, t ≠ "locations_train" → t ≠ "locations_candidates" →
         connect (create_db.db args) w' !! t = connect (create_db.db args) w !! t)
    ∧ (∀ q, q ≠ create_db.db args → dbs w' !! q = dbs w !! q)
    ∧ files w' = files w
    ∧ dirs w' = dirs w.
Proof.
  rewrite main_run. cbv zeta.
  destruct (files w !! create_db.train args) as [[| df_train | | |]|]; try done.
  destruct (create_db._validate_columns df_train _ _) eqn:Hvt; [|done].
  destruct (files w !! create_db.candidates args) as [[| df_cand | | |]|]; try done.
  destruct (create_db._validate_columns df_cand _ _) eqn:Hvc; [|done].
  intros [= <-]. exists df_train, df_cand.
  split; [done|]. split; [done|].
  split; [destruct a; exact (validate_columns_inv _ _ _ Hvt)|].
  split; [destruct a0; exact (validate_columns_inv _ _ _ Hvc)|].
  rewrite connect_with_db. split; [|split; [|split; [|split; [|done]]]].
  - rewrite lookup_insert_ne by discriminate. by rewrite lookup_insert_eq.
  - by rewrite lookup_insert_eq.
  - intros t Ht1 Ht2. rewrite !lookup_insert_ne by done.
    by rewrite !create_table_lookup_other.
  - intros q Hq. cbn [dbs with_db]. by rewrite lookup_insert_ne.
Qed.

(** X3 at a database that holds a table of its own. *)
Lemma create_db_main_loads_both_tables_witness :
  let w' := (create_db.main Demo.ingest_args Cases.ingest_world).2 in
  ∃ df_train df_cand,
    files Cases.ingest_world !! Demo.train_csv = Some (CsvFile df_train)
    ∧ files Cases.ingest_world !! Demo.candidates_csv = Some (CsvFile df_cand)
    ∧ (∀ c, c ∈ create_db.REQUIRED_TRAIN → c ∈ columns df_train)
    ∧ (∀ c, c ∈ create_db.REQUIRED_CAND → c ∈ columns df_cand)
    ∧ connect Demo.db_path w' !! "locations_train" = Some df_train
    ∧ connect Demo.db_path w' !! "locations_candidates" = Some df_cand
    ∧ (∀ t, t ≠ "locations_train" → t ≠ "locations_candidates" →
         connect Demo.db_path w' !! t = connect Demo.db_path Cases.ingest_world !! t)
    ∧ (∀ q, q ≠ Demo.db_path → dbs w' !! q = dbs Cases.ingest_world !! q)
    ∧ files w' = files Cases.ingest_world
    ∧ dirs w' = dirs Cases.ingest_world.
Proof.
  intros w'.
  apply (create_db_main_loads_both_tables Demo.ingest_args Cases.ingest_world w').
  vm_compute. reflexivity.
Defined.

(** X4. Ingestion is idempotent: in the world a successful [create_db.main]
    leaves, running it again with the same arguments succeeds and changes
    nothing. *)
Theorem create_db_main_idempotent (args : create_db.Namespace) (w w' : World) :
  create_db.main args w = (Ok (), w') → create_db.main args w' = (Ok (), w').
Proof.
  rewrite main_run. cbv zeta.
  destruct (files w !! create_db.train args) as [[| df_train | | |]|] eqn:Ht; try done.
  destruct (create_db._validate_columns df_train _ _) eqn:Hvt; [|done].
  destruct (files w !! create_db.candidates args) as [[| df_cand | | |]|] eqn:Hc; try done.
  destruct (create_db._validate_columns df_cand _ _) eqn:Hvc; [|done].
  intros [= <-]. rewrite main_run. cbv zeta. cbn [files with_db].
  rewrite Ht, Hvt, Hc, Hvc, connect_with_db, with_db_with_db. do 2 f_equal.
  set (D := <["locations_candidates" := df_cand]>
              (<["locations_train" := df_train]>
                 (create_table_if_not_exists _
                    (create_table_if_not_exists _ (connect _ w))))).
  assert (D !! "locations_train" = Some df_train) as Htrain.
  { unfold D. rewrite lookup_insert_ne by discriminate. by rewrite lookup_insert_eq. }
  assert (D !! "locations_candidates" = Some df_cand) as Hcand.
  { unfold D. by rewrite lookup_insert_eq. }
  rewrite (create_table_present create_db.SCHEMA_TRAIN D df_train Htrain).
  rewrite (create_table_present create_db.SCHEMA_CAND D df_cand Hcand).
  rewrite (insert_id D "locations_train" df_train Htrain).
  by rewrite (insert_id D "locations_candidates" df_cand Hcand).
Qed.

(** X4 at a database that holds a table of its own. *)
Lemma create_db_main_idempotent_witness :
  let w' := (create_db.main Demo.ingest_args Cases.ingest_world).2 in
  create_db.main Demo.ingest_args w' = (Ok (), w').
Proof.
  intros w'. apply (create_db_main_idempotent Demo.ingest_args Cases.ingest_world w').
  vm_compute. reflexivity.
Defined.

(** X5. Ingestion is not atomic: when [create_db.main] fails on the
    candidates CSV (the file is absent, or it lacks a required column), the
    training CSV has been accepted before and the table [locations_train]
    already holds the new training data; no file is changed. *)
Theorem create_db_main_not_atomic
    (args : create_db.Namespace) (w : World) (df_train : DataFrame) (e : exn) :
  files w !! create_db.train args = Some (CsvFile df_train) →
  let r := create_db.main args w in
  r.1 = Err e →
  (e = FileNotFoundError (create_db.candidates args)
   ∨ ∃ missing, e = ValueError (MissingColumns "locations_candidates" missing)) →
  connect (create_db.db args) r.2 !! "locations_train" = Some df_train
  ∧ (∀ c, c ∈ create_db.REQUIRED_TRAIN → c ∈ columns df_train)
  ∧ files r.2 = files w.
Proof.
  intros Ht r. unfold r. rewrite main_run. cbv zeta. rewrite Ht.
  destruct (create_db._validate_columns df_train _ _) as [[]|e'] eqn:Hvt.
  - assert (∀ (x : result ()) d,
              connect (create_db.db args)
                (x, with_db w (create_db.db args) (<["locations_train" := df_train]> d)).2
                !! "locations_train" = Some df_train
              ∧ (∀ c, c ∈ create_db.REQUIRED_TRAIN → c ∈ columns df_train)
              ∧ files (x, with_db w (create_db.db args)
                            (<["locations_train" := df_train]> d)).2 = files w) as Hstop.
    { intros x d. cbn [snd]. rewrite connect_with_db, lookup_insert_eq.
      split; [done|]. split; [exact (validate_columns_inv _ _ _ Hvt)|done]. }
    destruct (files w !! create_db.candidates args) as [[| df_cand | | |]|];
      try (intros _ _; apply Hstop).
    destruct (create_db._validate_columns df_cand _ _); [done|]. intros _ _; apply Hstop.
  - revert Hvt. unfold create_db._validate_columns. cbv zeta.
    destruct (decide (_ = ∅)); [done|]. intros [= <-]. cbn [fst].
    intros [= <-] [[=]|[missing [=]]].
Qed.

(** X5 where the candidates CSV is absent. *)
Lemma create_db_main_not_atomic_witness :
  let r := create_db.main Demo.ingest_args Cases.ingest_world_train_only in
  r.1 = Err (FileNotFoundError Demo.candidates_csv)
  ∧ connect Demo.db_path r.2 !! "locations_train" = Some Cases.csv_train
  ∧ (∀ c, c ∈ create_db.REQUIRED_TRAIN → c ∈ columns Cases.csv_train)
  ∧ files r.2 = files Cases.ingest_world_train_only.
Proof.
  intros r.
  assert (r.1 = Err (FileNotFoundError Demo.candidates_csv)) as Hr
    by (vm_compute; reflexivity).
  split; [exact Hr|].
  apply (create_db_main_not_atomic Demo.ingest_args Cases.ingest_world_train_only
           Cases.csv_train (FileNotFoundError Demo.candidates_csv)).
  - vm_compute. reflexivity.
  - exact Hr.
  - by left.
Defined.

(** ** Training, output by output *)

Lemma getitem_inv (df : DataFrame) (c : string) (y : list cell) :
  getitem df c = Ok y →
  c ∈ columns df ∧ y = map (λ r, row_get (columns df) r c) (rows df).
Proof. unfold getitem. destruct (decide _); [|done]. by intros [= <-]. Qed.

Lemma diagnostic_table_inv pipe train_df X y y_pred_all preds :
  getitem_list train_df train_regression.FEATURES = Ok X →
  getitem train_df train_regression.TARGET = Ok y →
  diagnostic_table pipe X y train_df = Ok (y_pred_all, preds) →
  (∀ c, c ∈ ["lat"; "lon"] → c ∈ columns train_df)
  ∧ y_pred_all = map (predict_record pipe (columns train_df)) (rows train_df)
  ∧ preds = mkDataFrame ["lat"; "lon"; "actual_profit"; "predicted_profit"]
              (map (λ r, [row_get (columns train_df) r "lat";
                          row_get (columns train_df) r "lon";
                          row_get (columns train_df) r "profit";
                          Num (predict_record pipe (columns train_df) r)])
                 (rows train_df)).
Proof.
  intros [_ ->]%getitem_list_inv [_ ->]%getitem_inv. unfold diagnostic_table.
  destruct (Pipeline_predict pipe _) as [p|] eqn:EP; cbn [mbind result_bind]; [|done].
  apply Pipeline_predict_inv in EP as (Hsub & -> & _). cbn [columns rows] in *.
  destruct (getitem_list train_df ["lat"; "lon"]) as [p0|] eqn:E0;
    cbn [mbind result_bind]; [|done].
  apply getitem_list_inv in E0 as [HL ->].
  assert (map (predict_record pipe train_regression.FEATURES)
            (map (λ r, map (row_get (columns train_df) r) train_regression.FEATURES)
               (rows train_df))
          = map (predict_record pipe (columns train_df)) (rows train_df)) as Hp.
  { rewrite map_map. apply map_ext. intros r.
    by rewrite (predict_record_projected pipe (columns train_df) train_regression.FEATURES r). }
  rewrite Hp. unfold setitem. cbn [columns rows].
  destruct (decide _) as [_|]; cbn [mbind result_bind columns rows]; [|done].
  destruct (decide _) as [_|]; cbn [mbind result_bind]; [|done].
  intros [= <- <-]. split; [done|]. split; [done|]. f_equal.
  rewrite !map_map, !zip_with_map_same. reflexivity.
Qed.

(** X6. After a successful run, [predictions_train.csv] has the four
    columns [lat], [lon], [actual_profit] and [predicted_profit] and one row
    per record of the training view, in the order of the view: the two
    coordinates and the label of that record, and the prediction that the
    persisted pipeline makes from the feature cells of that same record. *)
Theorem predictions_table_contents lib db_path sql_path outdir w sql_text d train_df :
  files w !! sql_path = Some (TextFile sql_text) →
  executescript lib sql_text (connect db_path w) = Ok d →
  d !! "features_train" = Some train_df →
  let r := train_regression.run_training lib db_path sql_path outdir w in
  let cols := columns train_df in
  r.1 = Ok () →
  ∃ pipe preds,
    files r.2 !! (outdir / "model.joblib")%path = Some (JoblibFile pipe)
    ∧ files r.2 !! (outdir / "predictions_train.csv")%path = Some (CsvFile preds)
    ∧ columns preds = ["lat"; "lon"; "actual_profit"; "predicted_profit"]
    ∧ length (rows preds) = length (rows train_df)
    ∧ ∀ i rec, rows train_df !! i = Some rec →
        rows preds !! i
        = Some [row_get cols rec "lat"; row_get cols rec "lon"; row_get cols rec "profit";
                Num (predict_record pipe cols rec)].
Proof.
  intros Hsql Hscript Hview r cols Hok.
  destruct (run_training_ok_inv lib db_path sql_path outdir w sql_text d train_df
              Hsql Hscript Hview Hok)
    as (X & y & pipe & metrics & y_pred_all & preds & imp & HA & HB & _ & _ & Hp & _ & Hm).
  apply fit_and_evaluate_inv in HA as (HX & Hy & _).
  destruct (diagnostic_table_inv pipe train_df X y y_pred_all preds HX Hy HB) as (_ & _ & ->).
  exists pipe. eexists. split; [exact Hm|]. split; [exact Hp|].
  cbn [columns rows]. split; [done|]. split; [by rewrite length_map|].
  intros i rec Hi. by rewrite list_lookup_fmap, Hi.
Qed.

(** X6 at the demo world. *)
Lemma predictions_table_contents_witness :
  let r := train_regression.run_training Demo.lib Demo.db_path Demo.sql_path Demo.outdir
             Demo.world0 in
  let cols := columns Demo.features_train in
  ∃ pipe preds,
    files r.2 !! (Demo.outdir / "model.joblib")%path = Some (JoblibFile pipe)
    ∧ files r.2 !! (Demo.outdir / "predictions_train.csv")%path = Some (CsvFile preds)
    ∧ columns preds = ["lat"; "lon"; "actual_profit"; "predicted_profit"]
    ∧ length (rows preds) = length (rows Demo.features_train)
    ∧ ∀ i rec, rows Demo.features_train !! i = Some rec →
        rows preds !! i
        = Some [row_get cols rec "lat"; row_get cols rec "lon"; row_get cols rec "profit";
                Num (predict_record pipe cols rec)].
Proof.
  apply (predictions_table_contents Demo.lib Demo.db_path Demo.sql_path Demo.outdir
           Demo.world0 "-- views" (connect Demo.db_path Demo.world0) Demo.features_train).
  - vm_compute. reflexivity.
  - reflexivity.
  - vm_compute. reflexivity.
  - vm_compute. reflexivity.
Defined.

(** X7. When the training view lacks one of the 13 feature columns,
    [run_training] fails with a [KeyError] that lists the absent features;
    when it has them all but lacks the label column, with a [KeyError] for
    [profit]. Either way no file has been written or changed. *)
Theorem training_missing_column lib db_path sql_path outdir w sql_text d train_df :
  files w !! sql_path = Some (TextFile sql_text) →
  executescript lib sql_text (connect db_path w) = Ok d →
  d !! "features_train" = Some train_df →
  let r := train_regression.run_training lib db_path sql_path outdir w in
  (∀ c, c ∈ train_regression.FEATURES → c ∉ columns train_df →
     r.1 = Err (KeyError (filter (λ c, c ∉ columns train_df) train_regression.FEATURES))
     ∧ files r.2 = files w)
  ∧ ((∀ c, c ∈ train_regression.FEATURES → c ∈ columns train_df) →
     train_regression.TARGET ∉ columns train_df →
     r.1 = Err (KeyError [train_regression.TARGET]) ∧ files r.2 = files w).
Proof.
  intros Hsql Hscript Hview r. unfold r.
  rewrite (run_training_run lib db_path sql_path outdir w sql_text d train_df) by done.
  cbv zeta. unfold fit_and_evaluate. split.
  - intros c Hc Hn.
    destruct (getitem_list_err train_df train_regression.FEATURES c Hc Hn)
      as (missing & -> & -> & _).
    done.
  - intros Hall Hn. rewrite (getitem_list_ok _ _ Hall). cbn [mbind result_bind].
    unfold getitem. by destruct (decide _).
Qed.

(** X7 at a view without its label column. *)
Lemma training_missing_column_witness :
  let train_df := Demo.features_candidates in
  let w := Demo.world_of (Demo.database train_df Demo.features_candidates) in
  let r := train_regression.run_training Demo.lib Demo.db_path Demo.sql_path Demo.outdir w in
  (∀ c, c ∈ train_regression.FEATURES → c ∉ columns train_df →
     r.1 = Err (KeyError (filter (λ c, c ∉ columns train_df) train_regression.FEATURES))
     ∧ files r.2 = files w)
  ∧ ((∀ c, c ∈ train_regression.FEATURES → c ∈ columns train_df) →
     train_regression.TARGET ∉ columns train_df →
     r.1 = Err (KeyError [train_regression.TARGET]) ∧ files r.2 = files w).
Proof.
  intros train_df w.
  apply (training_missing_column Demo.lib Demo.db_path Demo.sql_path Demo.outdir w
           "-- views" (connect Demo.db_path w) train_df).
  - vm_compute. reflexivity.
  - reflexivity.
  - vm_compute. reflexivity.
Defined.



Lemma check_y_length (y : list cell) (yf : list float) :
  check_y y = Ok yf → length yf = length y.
Proof.
  unfold check_y. destruct (mapM as_float y) as [l|] eqn:E; cbn [mbind result_bind]; [|done].
  apply mapM_as_float_inv in E as ->. destruct (forallb _ _); [|done].
  destruct (map cell_value y) eqn:E'; [done|]. intros [= <-]. by rewrite <- E', length_map.
Qed.

Lemma r2_score_short (y_true : list cell) (y_pred : list float) (r2 : float) :
  length y_true < 2 → r2_score y_true y_pred = Ok r2 → r2 = nan.
Proof.
  intros Hlen. unfold r2_score, check_reg_targets.
  destruct (check_y y_true) as [yt|] eqn:Et; cbn [mbind result_bind]; [|done].
  destruct (check_y (map Num y_pred)) as [yp|]; cbn [mbind result_bind]; [|done].
  apply check_y_length in Et. destruct (decide (length yt < 2)) as [|Hge]; [|lia].
  by intros [= <-].
Qed.

Lemma test_indices_length (lib : Lib) (n : nat) :
  (length (test_indices lib n) ≤ (n + 3) `div` 4)%nat.
Proof.
  unfold test_indices, split_indices. cbn [snd].
  rewrite length_take, n_test_of_quarter. lia.
Qed.

(** X9. On a training view of at most four records the evaluation
    partition holds a single record, on which R² is undefined: a run that
    succeeds writes NaN as the [r2] of [metrics.json]. *)
Theorem small_view_r2_is_nan lib db_path sql_path outdir w sql_text d train_df :
  files w !! sql_path = Some (TextFile sql_text) →
  executescript lib sql_text (connect db_path w) = Ok d →
  d !! "features_train" = Some train_df →
  (length (rows train_df) ≤ 4)%nat →
  let r := train_regression.run_training lib db_path sql_path outdir w in
  r.1 = Ok () →
  ∃ mae, files r.2 !! (outdir / "metrics.json")%path
         = Some (JsonFile [("r2", nan); ("mae", mae)]).
Proof.
  intros Hsql Hscript Hview Hlen r Hok.
  destruct (run_training_ok_inv lib db_path sql_path outdir w sql_text d train_df
              Hsql Hscript Hview Hok)
    as (X & y & pipe & metrics & _ & _ & _ & HA & _ & _ & Hm & _).
  apply fit_and_evaluate_inv in HA as (_ & _ & _ & ypt & r2 & mae & _ & Hr2 & _ & ->).
  apply r2_score_short in Hr2 as ->; [by exists mae|].
  unfold take_rows. rewrite length_map.
  pose proof (test_indices_length lib (length (rows train_df))) as Ht.
  assert ((length (rows train_df) + 3) `div` 4 < 2)%nat; [|lia].
  apply Nat.Div0.div_lt_upper_bound. lia.
Qed.

(** X9 at the first four records of the demo view. *)
Lemma small_view_r2_is_nan_witness :
  let w := Demo.world_of (Demo.database Cases.features_train_small Demo.features_candidates) in
  let r := train_regression.run_training Demo.lib Demo.db_path Demo.sql_path Demo.outdir w in
  ∃ mae, files r.2 !! (Demo.outdir / "metrics.json")%path
         = Some (JsonFile [("r2", nan); ("mae", mae)]).
Proof.
  intros w.
  apply (small_view_r2_is_nan Demo.lib Demo.db_path Demo.sql_path Demo.outdir w
           "-- views" (connect Demo.db_path w) Cases.features_train_small).
  - vm_compute. reflexivity.
  - reflexivity.
  - vm_compute. reflexivity.
  - vm_compute. lia.
  - vm_compute. reflexivity.
Defined.



(** ** Scoring, case by case *)

(** X11. The script hands the pipeline the 13 feature columns only, so an
    artifact fitted on any other column cannot be used: scoring fails with
    the [ValueError] by which the column transformer reports the columns it
    misses, whether or not the candidate view has them, and writes
    nothing. *)
Theorem scoring_rejects_foreign_artifact
    lib db_path sql_path model_path outdir w sql_text d X_cand pipe c :
  files w !! sql_path = Some (TextFile sql_text) →
  executescript lib sql_text (connect db_path w) = Ok d →
  d !! "features_candidates" = Some X_cand →
  files w !! model_path = Some (JoblibFile pipe) →
  (∀ c', c' ∈ score_new_sites.FEATURES → c' ∈ columns X_cand) →
  c ∈ pre_columns pipe → c ∉ score_new_sites.FEATURES →
  let r := score_new_sites.run_scoring lib db_path sql_path model_path outdir w in
  r.1 = Err (ValueError (ColumnsAreMissing
                           (filter (λ c', c' ∉ score_new_sites.FEATURES) (pre_columns pipe))))
  ∧ files r.2 = files w.
Proof.
  intros Hsql Hscript Hview Hmodel Hall Hc Hn r. unfold r.
  rewrite (run_scoring_run lib db_path sql_path model_path outdir w sql_text d X_cand pipe)
    by done.
  cbv zeta. unfold scored_table.
  rewrite (getitem_list_ok X_cand score_new_sites.FEATURES Hall). cbn [mbind result_bind].
  unfold Pipeline_predict, ColumnTransformer_select. cbn [columns].
  destruct (filter _ (pre_columns pipe)) as [|m ms] eqn:E; [|done].
  exfalso. apply (elem_of_nil c). rewrite <- E. by apply list_elem_of_filter.
Qed.

(** X11 with an artifact fitted on the latitude, a column the view has. *)
Lemma scoring_rejects_foreign_artifact_witness :
  let r := score_new_sites.run_scoring Demo.lib Demo.db_path Demo.sql_path Demo.model_path
             Demo.outdir Cases.world_foreign in
  r.1 = Err (ValueError (ColumnsAreMissing
                           (filter (λ c', c' ∉ score_new_sites.FEATURES)
                              (pre_columns Cases.pipe_foreign))))
  ∧ files r.2 = files Cases.world_foreign.
Proof.
  apply (scoring_rejects_foreign_artifact Demo.lib Demo.db_path Demo.sql_path Demo.model_path
           Demo.outdir Cases.world_foreign "-- views"
           (connect Demo.db_path Cases.world_foreign) Demo.features_candidates
           Cases.pipe_foreign "lat").
  - vm_compute. reflexivity.
  - reflexivity.
  - vm_compute. reflexivity.
  - vm_compute. reflexivity.
  - change (score_new_sites.FEATURES ⊆ columns Demo.features_candidates).
    decide_by_computation.
  - in_list.
  - decide_by_computation.
Defined.

(** X12. A candidate view without records is never scored: [run_scoring]
    fails and writes nothing; when the view has the columns and the
    artifact was fitted on features among the 13, the failure is the
    [ValueError] by which scikit-learn refuses an array of no sample. *)
Theorem scoring_rejects_empty_view
    lib db_path sql_path model_path outdir w sql_text d X_cand pipe :
  files w !! sql_path = Some (TextFile sql_text) →
  executescript lib sql_text (connect db_path w) = Ok d →
  d !! "features_candidates" = Some X_cand →
  files w !! model_path = Some (JoblibFile pipe) →
  rows X_cand = [] →
  let r := score_new_sites.run_scoring lib db_path sql_path model_path outdir w in
  (∃ e, r.1 = Err e)
  ∧ files r.2 = files w
  ∧ ((∀ c, c ∈ score_new_sites.FEATURES ++ ["lat"; "lon"] → c ∈ columns X_cand) →
     (∀ c, c ∈ pre_columns pipe → c ∈ score_new_sites.FEATURES) →
     r.1 = Err (ValueError TooFewSamples)).
Proof.
  intros Hsql Hscript Hview Hmodel Hrows r. unfold r.
  rewrite (run_scoring_run lib db_path sql_path model_path outdir w sql_text d X_cand pipe)
    by done.
  cbv zeta.
  destruct (scored_table pipe X_cand) as [scored|e] eqn:E.
  { apply scored_table_inv in E as (_ & _ & _ & Hne & _). done. }
  split; [by eexists|]. split; [done|].
  intros Hall Hsub. cbn [fst]. f_equal. revert E. unfold scored_table.
  rewrite (getitem_list_ok X_cand score_new_sites.FEATURES)
    by (intros c Hc; apply Hall, elem_of_app; auto).
  cbn [mbind result_bind]. unfold Pipeline_predict, ColumnTransformer_select. cbn [columns].
  rewrite filter_none by (intros c Hc Hn; auto).
  rewrite (getitem_list_ok _ (pre_columns pipe)) by (cbn [columns]; auto).
  cbn [mbind result_bind rows]. rewrite Hrows. cbn. by intros [= <-].
Qed.

(** X12 at the candidate view emptied, after the demo training. *)
Lemma scoring_rejects_empty_view_witness :
  let r := score_new_sites.run_scoring Demo.lib Demo.db_path Demo.sql_path Demo.model_path
             Demo.outdir Cases.world1_empty_view in
  (∃ e, r.1 = Err e)
  ∧ files r.2 = files Cases.world1_empty_view
  ∧ ((∀ c, c ∈ score_new_sites.FEATURES ++ ["lat"; "lon"] →
           c ∈ columns Cases.features_candidates_empty) →
     (∀ c, c ∈ pre_columns Demo.pipe1 → c ∈ score_new_sites.FEATURES) →
     r.1 = Err (ValueError TooFewSamples)).
Proof.
  apply (scoring_rejects_empty_view Demo.lib Demo.db_path Demo.sql_path Demo.model_path
           Demo.outdir Cases.world1_empty_view "-- views"
           (connect Demo.db_path Cases.world1_empty_view) Cases.features_candidates_empty
           Demo.pipe1).
  - vm_compute. reflexivity.
  - reflexivity.
  - vm_compute. reflexivity.
  - vm_compute. reflexivity.
  - reflexivity.
Defined.

(** ** Training, then scoring *)






(** ** The charts *)

(** X14. After a successful run the three charts are drawn from the data
    of the two tables written beside them: the scatter plot from the
    [actual_profit] and [predicted_profit] columns of
    [predictions_train.csv], the histogram from their differences, record
    by record, and the bar chart from the first 15 rows of
    [feature_importance.csv]. *)
Theorem charts_drawn_from_tables lib db_path sql_path outdir w sql_text d train_df :
  files w !! sql_path = Some (TextFile sql_text) →
  executescript lib sql_text (connect db_path w) = Ok d →
  d !! "features_train" = Some train_df →
  let r := train_regression.run_training lib db_path sql_path outdir w in
  let charts := (outdir / "charts")%path in
  let actual (row : list cell) := cell_value (nth 2 row NA) in
  let predicted (row : list cell) := cell_value (nth 3 row NA) in
  r.1 = Ok () →
  ∃ preds imp title_scatter title_hist title_bar,
    files r.2 !! (outdir / "predictions_train.csv")%path = Some (CsvFile preds)
    ∧ files r.2 !! (outdir / "feature_importance.csv")%path = Some (CsvFile imp)
    ∧ files r.2 !! (charts / "actual_vs_predicted.png")%path
      = Some (PngFile (Scatter (map actual (rows preds)) (map predicted (rows preds))
                         title_scatter))
    ∧ files r.2 !! (charts / "residuals_hist.png")%path
      = Some (PngFile (Hist (map (λ row, (actual row - predicted row)%float) (rows preds))
                         title_hist))
    ∧ files r.2 !! (charts / "feature_importance.png")%path
      = Some (PngFile (Bar (take 15 (map (λ row, nth 0 row NA) (rows imp)))
                         (take 15 (map (λ row, nth 1 row NA) (rows imp)))
                         title_bar)).
Proof.
  intros Hsql Hscript Hview r charts actual predicted. unfold r.
  rewrite (run_training_run lib db_path sql_path outdir w sql_text d train_df) by done.
  cbv zeta.
  destruct (fit_and_evaluate lib train_df) as [[[[X y] pipe] metrics]|] eqn:HA; [|done].
  destruct (diagnostic_table pipe X y train_df) as [[y_pred_all preds]|] eqn:HB; [|done].
  destruct (importance_table lib pipe) as [imp|] eqn:HC; [|done].
  destruct (importance_series imp) as [[names values]|] eqn:HS; [|done].
  intros _. exists preds, imp. do 3 eexists.
  apply fit_and_evaluate_inv in HA as (HX & Hy & _).
  destruct (diagnostic_table_inv pipe train_df X y y_pred_all preds HX Hy HB)
    as (_ & Hall & Hpreds).
  apply getitem_inv in Hy as [_ Hy].
  apply importance_table_inv in HC as (_ & _ & Himp).
  assert (names = map (λ row, nth 0 row NA) (rows imp)
          ∧ values = map (λ row, nth 1 row NA) (rows imp)) as [-> ->].
  { revert HS. unfold importance_series, getitem. rewrite Himp. cbn [columns rows].
    rewrite decide_True by in_list. cbn [mbind result_bind].
    rewrite decide_True by in_list. cbn [mbind result_bind].
    by intros [= <- <-]. }
  assert (map cell_value y = map actual (rows preds)) as ->.
  { rewrite Hy, Hpreds. cbn [rows]. rewrite !map_map. reflexivity. }
  assert (zip_with (λ a b, (cell_value a - b)%float) y y_pred_all
          = map (λ row, (actual row - predicted row)%float) (rows preds)) as ->.
  { rewrite Hy, Hall, Hpreds. cbn [rows]. rewrite zip_with_map_same, map_map. reflexivity. }
  assert (y_pred_all = map predicted (rows preds)) as ->.
  { rewrite Hall, Hpreds. cbn [rows]. rewrite map_map. reflexivity. }
  clear Hy Hall Hpreds Himp.
  cbn [snd files with_file save with_dir with_db].
  repeat split.
  - do 5 (rewrite lookup_insert_ne
            by (first [apply path_join_ne; discriminate | apply path_join2_ne
                      | apply not_eq_sym, path_join2_ne])).
    by rewrite lookup_insert_eq.
  - do 2 (rewrite lookup_insert_ne
            by (first [apply path_join_ne; discriminate | apply path_join2_ne
                      | apply not_eq_sym, path_join2_ne])).
    by rewrite lookup_insert_eq.
  - do 4 (rewrite lookup_insert_ne
            by (first [apply path_join_ne; discriminate | apply path_join2_ne
                      | apply not_eq_sym, path_join2_ne])).
    by rewrite lookup_insert_eq.
  - do 3 (rewrite lookup_insert_ne
            by (first [apply path_join_ne; discriminate | apply path_join2_ne
                      | apply not_eq_sym, path_join2_ne])).
    by rewrite lookup_insert_eq.
  - do 1 (rewrite lookup_insert_ne
            by (first [apply path_join_ne; discriminate | apply path_join2_ne
                      | apply not_eq_sym, path_join2_ne])).
    by rewrite lookup_insert_eq.
Qed.

(** X14 at the demo world. *)
Lemma charts_drawn_from_tables_witness :
  let r := train_regression.run_training Demo.lib Demo.db_path Demo.sql_path Demo.outdir
             Demo.world0 in
  let charts := (Demo.outdir / "charts")%path in
  let actual (row : list cell) := cell_value (nth 2 row NA) in
  let predicted (row : list cell) := cell_value (nth 3 row NA) in
  ∃ preds imp title_scatter title_hist title_bar,
    files r.2 !! (Demo.outdir / "predictions_train.csv")%path = Some (CsvFile preds)
    ∧ files r.2 !! (Demo.outdir / "feature_importance.csv")%path = Some (CsvFile imp)
    ∧ files r.2 !! (charts / "actual_vs_predicted.png")%path
      = Some (PngFile (Scatter (map actual (rows preds)) (map predicted (rows preds))
                         title_scatter))
    ∧ files r.2 !! (charts / "residuals_hist.png")%path
      = Some (PngFile (Hist (map (λ row, (actual row - predicted row)%float) (rows preds))
                         title_hist))
    ∧ files r.2 !! (charts / "feature_importance.png")%path
      = Some (PngFile (Bar (take 15 (map (λ row, nth 0 row NA) (rows imp)))
                         (take 15 (map (λ row, nth 1 row NA) (rows imp)))
                         title_bar)).
Proof.
  apply (charts_drawn_from_tables Demo.lib Demo.db_path Demo.sql_path Demo.outdir
           Demo.world0 "-- views" (connect Demo.db_path Demo.world0) Demo.features_train).
  - vm_compute. reflexivity.
  - reflexivity.
  - vm_compute. reflexivity.
  - vm_compute. reflexivity.
Defined.

(** ** Labels that cannot be used *)

Lemma mapM_as_float_value_error (cells : list cell) :
  value_or_value_error (mapM as_float cells).
Proof.
  induction cells as [|c cells IH]; [done|]. simpl.
  destruct c; simpl; [|done]. by destruct (mapM as_float cells).
Qed.

Lemma check_array_value_error allow_nan (X : list (list cell)) :
  value_or_value_error (check_array allow_nan X).
Proof.
  unfold check_array.
  assert (value_or_value_error (mapM (mapM as_float) X)) as H.
  { induction X as [|r X IH]; [done|]. simpl.
    pose proof (mapM_as_float_value_error r) as Hr.
    destruct (mapM as_float r); simpl; [|done]. by destruct (mapM (mapM as_float) X). }
  destruct (mapM (mapM as_float) X) as [Xf|]; simpl; [|done].
  unfold check_finite. destruct (forallb _ Xf); [|done]. by destruct Xf.
Qed.

Lemma check_finite_value_error allow_nan (X : list (list float)) :
  value_or_value_error (check_finite allow_nan X).
Proof. unfold check_finite. destruct (forallb _ X); [|done]. by destruct X. Qed.

Lemma ColumnTransformer_select_value_error (cols : list string) (X : DataFrame) :
  value_or_value_error (ColumnTransformer_select cols X).
Proof.
  unfold ColumnTransformer_select, getitem_list.
  destruct (filter _ cols); [|done]. cbn [mbind result_bind].
  apply check_array_value_error.
Qed.

Lemma check_y_value_error (y : list cell) : value_or_value_error (check_y y).
Proof.
  unfold check_y. pose proof (mapM_as_float_value_error y) as H.
  destruct (mapM as_float y) as [yf|]; cbn [mbind result_bind]; [|done].
  destruct (forallb _ yf); [|done]. by destruct yf.
Qed.

Lemma Pipeline_predict_value_error (pipe : Pipeline) (X : DataFrame) :
  value_or_value_error (Pipeline_predict pipe X).
Proof.
  unfold Pipeline_predict.
  pose proof (ColumnTransformer_select_value_error (pre_columns pipe) X) as H.
  destruct (ColumnTransformer_select _ X) as [Xs|]; cbn [mbind result_bind]; [|done].
  pose proof (check_finite_value_error false (map (scale_row (pre_scaler pipe)) Xs)) as H'.
  by destruct (check_finite false _).
Qed.

Lemma Pipeline_fit_value_error lib cols alpha l1_ratio seed X y :
  value_or_value_error (Pipeline_fit lib cols alpha l1_ratio seed X y).
Proof.
  unfold Pipeline_fit.
  pose proof (ColumnTransformer_select_value_error cols X) as H.
  destruct (ColumnTransformer_select cols X) as [Xs|]; cbn [mbind result_bind]; [|done].
  pose proof (check_finite_value_error false (map (scale_row (scaler_fit lib Xs)) Xs)) as H'.
  destruct (check_finite false _); cbn [mbind result_bind]; [|done].
  pose proof (check_y_value_error y) as Hy.
  by destruct (check_y y).
Qed.

(** A vector with a label that is not a finite number does not pass. *)
Lemma check_y_unusable (y : list cell) (x : float) :
  Num x ∈ y → is_finite x = false → ∃ why, check_y y = Err (ValueError why).
Proof.
  intros Hin Hx. unfold check_y.
  pose proof (mapM_as_float_value_error y) as H.
  destruct (mapM as_float y) as [yf|[]] eqn:E; cbn [mbind result_bind]; try done;
    [|by eexists].
  apply mapM_as_float_inv in E as ->.
  assert (forallb is_finite (map cell_value y) = false) as ->; [|by eexists].
  apply not_true_is_false. intros Hall. rewrite forallb_forall in Hall.
  specialize (Hall x). rewrite Hx in Hall. discriminate Hall.
  apply in_map_iff. exists (Num x). split; [done|]. by apply list_elem_of_In.
Qed.

(** Every position is in one of the two partitions. *)
Lemma split_indices_cover (perm : list nat) (n n_test i : nat) :
  perm ≡ₚ seq 0 n → i < n →
  let split := split_indices perm (n - n_test) n_test in
  i ∈ split.1 ∨ i ∈ split.2.
Proof.
  intros Hperm Hi. unfold split_indices. cbn [fst snd].
  assert (i ∈ perm) as Hin.
  { rewrite Hperm. apply list_elem_of_In, in_seq. lia. }
  rewrite <- (take_drop n_test perm) in Hin. apply elem_of_app in Hin as [Hin|Hin].
  - by right.
  - left. rewrite take_ge; [done|].
    rewrite length_drop, (Permutation_length Hperm), length_seq. lia.
Qed.

Lemma take_rows_elem {A} (d : A) (l : list A) (ind : list nat) (i : nat) :
  i ∈ ind → nth i l d ∈ take_rows d l ind.
Proof. intros Hi. unfold take_rows. apply list_elem_of_fmap. by exists i. Qed.

Lemma fit_and_evaluate_unusable_label lib train_df i rec x :
  (∀ c, c ∈ train_regression.TARGET :: train_regression.FEATURES → c ∈ columns train_df) →
  (permutation lib 42 (length (rows train_df))).1 ≡ₚ seq 0 (length (rows train_df)) →
  rows train_df !! i = Some rec →
  row_get (columns train_df) rec train_regression.TARGET = Num x →
  is_finite x = false →
  ∃ why, fit_and_evaluate lib train_df = Err (ValueError why).
Proof.
  intros Hcols Hperm Hi Hrec Hx. unfold fit_and_evaluate.
  rewrite (getitem_list_ok train_df train_regression.FEATURES)
    by (intros c Hc; apply Hcols; by right).
  cbn [mbind result_bind].
  rewrite (getitem_ok train_df train_regression.TARGET) by (apply Hcols; by left).
  cbn [mbind result_bind].
  set (X := mkDataFrame _ _). set (y := map _ (rows train_df)).
  assert (length (rows X) = length (rows train_df)) as Hn
    by (unfold X; cbn [rows]; by rewrite length_map).
  assert (i < length (rows train_df)) as Hlt by (by eapply lookup_lt_Some).
  assert (nth i y NA = Num x) as Hy.
  { unfold y. rewrite (nth_map_lt _ _ _ _ []) by done.
    by rewrite (nth_lookup_Some _ _ _ _ Hi). }
  unfold shuffle_split. cbv zeta. rewrite Hn.
  destruct (decide _) as [|Hne]; cbn [mbind result_bind]; [by eexists|].
  unfold split_indices.
  destruct (split_indices_cover _ _ (n_test_of 25 100 (length (rows train_df))) i Hperm Hlt)
    as [Htrain|Htest]; unfold split_indices in *; cbn [fst snd] in *;
    cbn [mbind result_bind].
  - apply (take_rows_elem NA y) in Htrain. rewrite Hy in Htrain.
    destruct (check_y_unusable _ x Htrain Hx) as [why Hwhy].
    match goal with
    | |- context [Pipeline_fit ?l ?c ?a ?b ?s ?Xt ?yt] =>
        pose proof (Pipeline_fit_value_error l c a b s Xt yt) as Hv;
        destruct (Pipeline_fit l c a b s Xt yt) as [pipe|[]] eqn:Ef;
          cbn [mbind result_bind]; try done; [|by eexists]
    end.
    exfalso. revert Ef. unfold Pipeline_fit.
    destruct (ColumnTransformer_select _ _); cbn [mbind result_bind]; [|done].
    destruct (check_finite false _); cbn [mbind result_bind]; [|done].
    by rewrite Hwhy.
  - apply (take_rows_elem NA y) in Htest. rewrite Hy in Htest.
    destruct (check_y_unusable _ x Htest Hx) as [why Hwhy].
    match goal with
    | |- context [Pipeline_fit ?l ?c ?a ?b ?s ?Xt ?yt] =>
        pose proof (Pipeline_fit_value_error l c a b s Xt yt) as Hv;
        destruct (Pipeline_fit l c a b s Xt yt) as [pipe|[]];
          cbn [mbind result_bind]; try done; [|by eexists]
    end.
    match goal with
    | |- context [Pipeline_predict pipe ?Xt] =>
        pose proof (Pipeline_predict_value_error pipe Xt) as Hv';
        destruct (Pipeline_predict pipe Xt) as [ypt|[]];
          cbn [mbind result_bind]; try done; [|by eexists]
    end.
    unfold r2_score, check_reg_targets. rewrite Hwhy. cbn [mbind result_bind]. by eexists.
Qed.

(** X15. A training record whose label is missing or not a finite number
    stops the run before anything is written, in whichever partition the
    split puts it: with the feature and label columns in place and a
    generator that returns a permutation, [run_training] fails with a
    [ValueError] and no file is written or changed. *)
Theorem training_rejects_unusable_label
    lib db_path sql_path outdir w sql_text d train_df i rec x :
  files w !! sql_path = Some (TextFile sql_text) →
  executescript lib sql_text (connect db_path w) = Ok d →
  d !! "features_train" = Some train_df →
  (∀ c, c ∈ train_regression.TARGET :: train_regression.FEATURES → c ∈ columns train_df) →
  (permutation lib 42 (length (rows train_df))).1 ≡ₚ seq 0 (length (rows train_df)) →
  rows train_df !! i = Some rec →
  row_get (columns train_df) rec train_regression.TARGET = Num x →
  is_finite x = false →
  let r := train_regression.run_training lib db_path sql_path outdir w in
  (∃ why, r.1 = Err (ValueError why)) ∧ files r.2 = files w.
Proof.
  intros Hsql Hscript Hview Hcols Hperm Hi Hrec Hx r. unfold r.
  rewrite (run_training_run lib db_path sql_path outdir w sql_text d train_df) by done.
  cbv zeta.
  destruct (fit_and_evaluate_unusable_label lib train_df i rec x Hcols Hperm Hi Hrec Hx)
    as [why ->].
  split; [by exists why|done].
Qed.

(** X15 at the demo view with the label of its last record missing. *)
Lemma training_rejects_unusable_label_witness :
  let w := Demo.world_of (Demo.database Cases.features_train_unlabelled
                            Demo.features_candidates) in
  let r := train_regression.run_training Demo.lib Demo.db_path Demo.sql_path Demo.outdir w in
  (∃ why, r.1 = Err (ValueError why)) ∧ files r.2 = files w.
Proof.
  intros w.
  apply (training_rejects_unusable_label Demo.lib Demo.db_path Demo.sql_path Demo.outdir w
           "-- views" (connect Demo.db_path w) Cases.features_train_unlabelled 7
           (nth 7 (rows Cases.features_train_unlabelled) []) nan).
  - vm_compute. reflexivity.
  - reflexivity.
  - vm_compute. reflexivity.
  - change (train_regression.TARGET :: train_regression.FEATURES
            ⊆ columns Cases.features_train_unlabelled).
    decide_by_computation.
  - vm_compute. decide_by_computation.
  - vm_compute. reflexivity.
  - vm_compute. reflexivity.
  - vm_compute. reflexivity.
Defined.

(** ** What ingestion accepts *)

(** X16. A CSV file is accepted for a table exactly when it has every
    column of that table's [CREATE TABLE] statement, in any order and with
    any further column: the two sets of required names are the column lists
    of the two schemas. *)
Theorem csv_accepted_iff_schema_columns (df : DataFrame) :
  (create_db._validate_columns df create_db.REQUIRED_TRAIN "locations_train" = Ok ()
   ↔ ∀ c, c ∈ create_db.SCHEMA_TRAIN.2 → c ∈ columns df)
  ∧ (create_db._validate_columns df create_db.REQUIRED_CAND "locations_candidates" = Ok ()
     ↔ ∀ c, c ∈ create_db.SCHEMA_CAND.2 → c ∈ columns df).
Proof.
  assert (create_db.REQUIRED_TRAIN = list_to_set create_db.SCHEMA_TRAIN.2) as Ht
    by reflexivity.
  assert (create_db.REQUIRED_CAND = list_to_set create_db.SCHEMA_CAND.2) as Hc
    by decide_by_computation.
  split; split.
  - intros H c Hc'. apply (validate_columns_inv _ _ _ H). rewrite Ht.
    by apply elem_of_list_to_set.
  - intros H. apply validate_columns_ok. intros c Hc'. apply H.
    rewrite Ht in Hc'. by apply elem_of_list_to_set in Hc'.
  - intros H c Hc'. apply (validate_columns_inv _ _ _ H). rewrite Hc.
    by apply elem_of_list_to_set.
  - intros H. apply validate_columns_ok. intros c Hc'. apply H.
    rewrite Hc in Hc'. by apply elem_of_list_to_set in Hc'.
Qed.

(** ** Training again *)






